(** * fast_flights.core: fetch orchestration and HTML-to-flight extraction

    A shallow embedding of [src/fast_flights/core.py].

    - Python [str] values are [string]s; a character is a code point below
      256, so the character classes below are the restrictions of the
      Unicode ones to that range.
    - Exceptions are values of [exn]; a computation that may raise returns a
      [result].
    - [print], [logger.debug] and the calls to the transport and browser
      collaborators are effects on an explicit [World].
    - selectolax, the HTTP client, the browser drivers and the query encoder
      are not part of this module: they are the fields of [Collaborators]. *)

From Stdlib Require Import List String Ascii ZArith Bool Arith Lia.
From Stdlib Require Import DecimalString.
From Equations Require Import Equations.
Import ListNotations.
Open Scope string_scope.
Open Scope Z_scope.

Set Implicit Arguments.
Set Warnings "-register-all".

(* ===================================================================== *)
(** ** Exceptions *)
(* ===================================================================== *)

(** The exception classes that [core.py] raises, catches or lets through.
    [FlightParsingError] and [FlightDateTooFarError] are declared in the
    module as subclasses of [RuntimeError].  [OtherException] stands for any
    other class a collaborator may raise, with whether it derives from
    [RuntimeError]. *)
Inductive exn : Type :=
| AssertionError (msg : string)
| AttributeError
| IndexError
| KeyError (key : string)
| TypeError
| ValueError
| RuntimeError (msg : string)
| FlightParsingError (msg : string)
| FlightDateTooFarError (msg : string)
| OtherException (name msg : string) (derives_runtime_error : bool).

(** [isinstance(e, RuntimeError)] *)
Definition is_RuntimeError (e : exn) : bool :=
  match e with
  | RuntimeError _ | FlightParsingError _ | FlightDateTooFarError _ => true
  | OtherException _ _ b => b
  | _ => false
  end.

(** [str(e)]: the message the exception was raised with. *)
Definition exn_str (e : exn) : string :=
  match e with
  | AssertionError m | RuntimeError m | FlightParsingError m
  | FlightDateTooFarError m | OtherException _ m _ => m
  | KeyError k => k
  | AttributeError | IndexError | TypeError | ValueError => ""
  end.

Definition is_AssertionError (e : exn) : bool :=
  match e with AssertionError _ => true | _ => false end.

Definition is_ValueError (e : exn) : bool :=
  match e with ValueError => true | _ => false end.

(** [KeyError] and [IndexError] both derive from [LookupError]; only
    [IndexError] itself is caught by [except IndexError]. *)
Definition is_IndexError (e : exn) : bool :=
  match e with IndexError => true | _ => false end.

Inductive result (A : Type) : Type :=
| Ok (a : A)
| Raise (e : exn).
Arguments Ok {A} a.
Arguments Raise {A} e.

Definition rbind {A B} (r : result A) (k : A -> result B) : result B :=
  match r with
  | Ok a => k a
  | Raise e => Raise e
  end.

(** [try: body except C: handler] for a body without effects. *)
Definition rtry {A} (body : result A) (caught : exn -> bool)
    (handler : exn -> result A) : result A :=
  match body with
  | Ok a => Ok a
  | Raise e => if caught e then handler e else Raise e
  end.

(* ===================================================================== *)
(** ** Python built-ins on strings and lists *)
(* ===================================================================== *)

Module PyStr.

Definition code (c : ascii) : N := N_of_ascii c.

Definition in_range (lo hi : N) (c : ascii) : bool :=
  (N.leb lo (code c) && N.leb (code c) hi)%bool.

(** ASCII decimal digits; below code point 256 these are the only
    characters of category Nd, so this is [\d] and [str.isdecimal]. *)
Definition is_digit (c : ascii) : bool := in_range 48 57 c.

Definition digit_value (c : ascii) : Z := Z.of_N (code c) - 48.

Definition is_upper_AZ (c : ascii) : bool := in_range 65 90 c.

(** [str.isspace] below code point 256. *)
Definition is_space (c : ascii) : bool :=
  (in_range 9 13 c || in_range 28 32 c
   || N.eqb (code c) 133 || N.eqb (code c) 160)%bool.

(** The whitespace that [int] skips around a literal: the C-locale
    [Py_ISSPACE] below code point 127, and [str.isspace] from there on. *)
Definition is_int_space (c : ascii) : bool :=
  (in_range 9 13 c || N.eqb (code c) 32
   || N.eqb (code c) 133 || N.eqb (code c) 160)%bool.

Definition chars (s : string) : list ascii := list_ascii_of_string s.
Definition str (cs : list ascii) : string := string_of_list_ascii cs.

Fixpoint dropwhile {A} (p : A -> bool) (l : list A) : list A :=
  match l with
  | [] => []
  | x :: r => if p x then dropwhile p r else l
  end.

(** [l[i]] for a non-negative literal index. *)
Definition getitem {A} (l : list A) (i : nat) : result A :=
  match nth_error l i with
  | Some x => Ok x
  | None => Raise IndexError
  end.

(** [l[:stop]]: [None] keeps the whole list, a negative stop counts from
    the end, and an out-of-range stop is clipped. *)
Definition slice_to {A} (stop : option Z) (l : list A) : list A :=
  match stop with
  | None => l
  | Some k =>
      if k <? 0
      then firstn (Z.to_nat (Z.max 0 (Z.of_nat (List.length l) + k))) l
      else firstn (Z.to_nat k) l
  end.

(** [s.split(" ", 1)]: cut at the first space character, if any. *)
Fixpoint split_space_1_aux (cs : list ascii) (acc : list ascii)
    : list string :=
  match cs with
  | [] => [str (rev acc)]
  | c :: r =>
      if Ascii.eqb c " " then [str (rev acc); str r]
      else split_space_1_aux r (c :: acc)
  end.

Definition split_space_1 (s : string) : list string :=
  split_space_1_aux (chars s) [].

(** [s.split()]: the maximal runs of non-whitespace characters. *)
Fixpoint split_ws_aux (cs : list ascii) (cur : list ascii) : list string :=
  match cs with
  | [] => match cur with [] => [] | _ => [str (rev cur)] end
  | c :: r =>
      if is_space c
      then match cur with
           | [] => split_ws_aux r []
           | _ => str (rev cur) :: split_ws_aux r []
           end
      else split_ws_aux r (c :: cur)
  end.

Definition split_ws (s : string) : list string := split_ws_aux (chars s) [].

(** [sep.join(l)] *)
Fixpoint join (sep : string) (l : list string) : string :=
  match l with
  | [] => ""
  | [x] => x
  | x :: r => x ++ sep ++ join sep r
  end.

Fixpoint is_prefix (p cs : list ascii) : bool :=
  match p, cs with
  | [], _ => true
  | a :: p', b :: cs' => (Ascii.eqb a b && is_prefix p' cs')%bool
  | _ :: _, [] => false
  end.

(** [s.replace(old, new)] for a non-empty [old]: occurrences are replaced
    left to right without overlap.  [skip] counts the characters of an
    occurrence that are still to be dropped. *)
Fixpoint replace_aux (old new : list ascii) (cs : list ascii) (skip : nat)
    : list ascii :=
  match cs with
  | [] => []
  | c :: r =>
      match skip with
      | S k => replace_aux old new r k
      | O =>
          if is_prefix old cs
          then (new ++ replace_aux old new r (List.length old - 1))%list
          else c :: replace_aux old new r 0
      end
  end.

(** With an empty [old], Python inserts [new] before every character and
    at the end. *)
Definition replace (old new : string) (s : string) : string :=
  match chars old with
  | [] => str (flat_map (fun c => chars new ++ [c]) (chars s) ++ chars new)%list
  | _ => str (replace_aux (chars old) (chars new) (chars s) 0)
  end.

(** The digits of a decimal literal: a digit first, then digits with single
    underscores between them.  Returns the value, the number of digits and
    what follows the literal; [None] when there is no digit, or an
    underscore is doubled, leading or trailing. *)
Fixpoint scan_digits (cs : list ascii) (started prev_underscore : bool)
    (acc : Z) (ndigits : nat) : option (Z * nat * list ascii) :=
  let finish :=
    if (negb started || prev_underscore)%bool then None
    else Some (acc, ndigits, cs) in
  match cs with
  | [] => finish
  | c :: r =>
      if is_digit c
      then scan_digits r true false (10 * acc + digit_value c) (S ndigits)
      else if Ascii.eqb c "_"
      then if (negb started || prev_underscore)%bool then None
           else scan_digits r true true acc ndigits
      else finish
  end.

(** [sys.get_int_max_str_digits()], CPython's default. *)
Definition int_max_str_digits : nat := 4300.

(** [int(s)] for a [str]: optional whitespace, an optional sign, a decimal
    literal, optional whitespace; anything else is a [ValueError], and so
    is a literal of more than [int_max_str_digits] digits. *)
Definition int (s : string) : result Z :=
  let cs := dropwhile is_int_space (chars s) in
  let '(negative, body) :=
    match cs with
    | c :: r =>
        if Ascii.eqb c "+" then (false, r)
        else if Ascii.eqb c "-" then (true, r)
        else (false, cs)
    | [] => (false, cs)
    end in
  match scan_digits body false false 0 0 with
  | None => Raise ValueError
  | Some (v, n, rest) =>
      match dropwhile is_int_space rest with
      | [] =>
          if Nat.ltb int_max_str_digits n then Raise ValueError
          else Ok (if negative then - v else v)
      | _ :: _ => Raise ValueError
      end
  end.

End PyStr.

(* ===================================================================== *)
(** ** The pattern of the airline decoder *)
(* ===================================================================== *)

(** [re.findall(r"-([A-Z0-9]{2})-(\d{2,4})-", s)], written out for this
    pattern: a backtracking match at each position, left to right, the
    next search starting where the previous match ended. *)
Module Re.
Import PyStr.

(** [[A-Z0-9]] *)
Definition is_code_char (c : ascii) : bool :=
  (is_upper_AZ c || is_digit c)%bool.

(** Exactly [n] characters of class [p] at the head of [cs]. *)
Fixpoint take_class (p : ascii -> bool) (n : nat) (cs : list ascii)
    : option (list ascii * list ascii) :=
  match n with
  | O => Some ([], cs)
  | S n' =>
      match cs with
      | c :: r =>
          if p c
          then match take_class p n' r with
               | Some (ds, rest) => Some (c :: ds, rest)
               | None => None
               end
          else None
      | [] => None
      end
  end.

(** A literal ["-"] at the head of [cs]. *)
Definition dash (cs : list ascii) : option (list ascii) :=
  match cs with
  | c :: r => if Ascii.eqb c "-" then Some r else None
  | [] => None
  end.

(** [(\d{n})-] for one repetition count [n]. *)
Definition digits_dash (n : nat) (cs : list ascii)
    : option (list ascii * list ascii) :=
  match take_class is_digit n cs with
  | Some (ds, rest) =>
      match dash rest with
      | Some rest' => Some (ds, rest')
      | None => None
      end
  | None => None
  end.

Definition or_else {A} (a b : option A) : option A :=
  match a with Some _ => a | None => b end.

(** The whole pattern at the head of [cs]; the greedy [{2,4}] tries four
    digits, then three, then two.  Returns the two groups and the text after
    the match. *)
Definition match_here (cs : list ascii)
    : option (string * string * list ascii) :=
  match dash cs with
  | None => None
  | Some r1 =>
      match take_class is_code_char 2 r1 with
      | None => None
      | Some (g1, r2) =>
          match dash r2 with
          | None => None
          | Some r3 =>
              match or_else (digits_dash 4 r3)
                      (or_else (digits_dash 3 r3) (digits_dash 2 r3)) with
              | Some (g2, r4) => Some (str g1, str g2, r4)
              | None => None
              end
          end
      end
  end.

(** [skip] counts the characters of the last match still to be passed. *)
Fixpoint findall_aux (cs : list ascii) (skip : nat)
    : list (string * string) :=
  match cs with
  | [] => []
  | _ :: r =>
      match skip with
      | S k => findall_aux r k
      | O =>
          match match_here cs with
          | Some (g1, g2, rest) =>
              (g1, g2)
                :: findall_aux r (List.length cs - List.length rest - 1)
          | None => findall_aux r 0
          end
      end
  end.

Definition findall (s : string) : list (string * string) :=
  findall_aux (chars s) 0.

End Re.

(* ===================================================================== *)
(** ** Data model *)
(* ===================================================================== *)

(** A [dict] with string keys and values, in insertion order. *)
Definition dict : Type := list (string * string).

Fixpoint dict_get {V} (d : list (string * V)) (k : string) : option V :=
  match d with
  | [] => None
  | (k', v) :: r => if String.eqb k' k then Some v else dict_get r k
  end.

(** [d[k]] *)
Definition dict_getitem {V} (d : list (string * V)) (k : string) : result V :=
  match dict_get d k with
  | Some v => Ok v
  | None => Raise (KeyError k)
  end.

(** [primp.Response], as far as this module reads it. *)
Record Response : Type := {
  status_code : Z;
  text : string;
  text_markdown : string
}.

(** The value of [stops]: an [int], or the string ["Unknown"]. *)
Inductive stops_value : Type :=
| StopsInt (n : Z)
| StopsStr (s : string).

(** [schema.Flight], with the keyword arguments [parse_response] passes. *)
Record Flight : Type := {
  is_best : bool;
  name : string;
  departure : string;
  arrival : string;
  arrival_time_ahead : string;
  duration : string;
  stops : stops_value;
  delay : option string;
  price : string;
  airline_code : string;
  flight_number : string
}.

(** [schema.Result] *)
Record Result : Type := {
  current_price : string;
  flights : list Flight
}.

Inductive fetch_mode : Type :=
| common
| fallback
| force_fallback
| local.

Definition fetch_mode_eqb (a b : fetch_mode) : bool :=
  match a, b with
  | common, common | fallback, fallback
  | force_fallback, force_fallback | local, local => true
  | _, _ => false
  end.

(** The arguments of [Client(...)]. *)
Record ClientConfig : Type := {
  impersonate : string;
  verify : bool;
  client_proxy : option string
}.

(** Which collaborator a request went through. *)
Inductive strategy : Type :=
| DirectHttp
| RemoteBrowser
| LocalBrowser.

(** One request handed to a collaborator. *)
Record Call : Type := {
  call_strategy : strategy;
  call_params : dict
}.

(** The double-quote character, for the selectors below. *)
Definition dq : string := String (ascii_of_nat 34) "".

(** [div[jsname="qJTHM"][class="FXkZv fXx9Lc"]]: the banner of a date that
    is too far in the future. *)
Definition date_too_far_selector : string :=
  "div[jsname=" ++ dq ++ "qJTHM" ++ dq ++ "][class=" ++ dq
    ++ "FXkZv fXx9Lc" ++ dq ++ "]".

(** [div[jsname="qJTHM"]]: present on every results page. *)
Definition required_selector : string :=
  "div[jsname=" ++ dq ++ "qJTHM" ++ dq ++ "]".

(** [div[jsname="IWWDBc"], div[jsname="YdtKid"]]: the flight groups. *)
Definition groups_selector : string :=
  "div[jsname=" ++ dq ++ "IWWDBc" ++ dq ++ "], div[jsname=" ++ dq
    ++ "YdtKid" ++ dq ++ "]".

(* ===================================================================== *)
(** ** Collaborators *)
(* ===================================================================== *)

(** What this module imports and calls but does not define.

    - selectolax's Lexbor binding: the parser and its nodes answer [css]
      and [css_first]; a node has a [text] and [attributes], whose values
      are [None] for an attribute written without a value.  [css_first]
      is the first match of [css]; [date_too_far_selector] is
      [required_selector] with one more attribute test, so it matches
      nothing where [required_selector] matches nothing.
    - [TFSData.as_b64], decoded: base64 text.
    - The HTTP client and the two browser drivers act on a state [Net] of
      their own (network, sessions); each may raise. *)
Class Collaborators : Type := {
  LexborNode : Type;
  LexborHTMLParser : string -> LexborNode;
  css : LexborNode -> string -> list LexborNode;
  css_first : LexborNode -> string -> option LexborNode;
  node_text : LexborNode -> bool -> string;
  attributes : LexborNode -> list (string * option string);
  css_first_css : forall n sel, css_first n sel = hd_error (css n sel);
  css_narrow : forall n,
    css_first n required_selector = None ->
    css_first n date_too_far_selector = None;
  TFSData : Type;
  as_b64 : TFSData -> string;
  Net : Type;
  Client_get : ClientConfig -> string -> dict -> dict -> Net ->
               result Response * Net;
  fallback_playwright_fetch : dict -> Net -> result Response * Net;
  local_playwright_fetch : dict -> Net -> result Response * Net
}.

(* ===================================================================== *)
(** ** Effects *)
(* ===================================================================== *)

Section Core.
Context {C : Collaborators}.

(** What a call can change: the collaborators' state, the lines printed,
    the debug log records, and [calls], the requests made so far, most
    recent last.  [calls] is only written, never read, by the program. *)
Record World : Type := {
  net : Net;
  stdout : list string;
  debug_log : list string;
  calls : list Call
}.

Definition Py (A : Type) : Type := World -> result A * World.

Definition ret {A} (a : A) : Py A := fun w => (Ok a, w).

Definition raise {A} (e : exn) : Py A := fun w => (Raise e, w).

Definition bind {A B} (m : Py A) (k : A -> Py B) : Py B :=
  fun w =>
    match m w with
    | (Ok a, w') => k a w'
    | (Raise e, w') => (Raise e, w')
    end.

Definition lift {A} (r : result A) : Py A := fun w => (r, w).

(** [try: body except C as e: handler e]; what [body] did before it raised
    stays done. *)
Definition try_except {A} (body : Py A) (caught : exn -> bool)
    (handler : exn -> Py A) : Py A :=
  fun w =>
    match body w with
    | (Ok a, w') => (Ok a, w')
    | (Raise e, w') => if caught e then handler e w' else (Raise e, w')
    end.

Definition print (line : string) : Py unit :=
  fun w => (Ok tt, {| net := net w; stdout := stdout w ++ [line];
                      debug_log := debug_log w; calls := calls w |}).

Definition logger_debug (record : string) : Py unit :=
  fun w => (Ok tt, {| net := net w; stdout := stdout w;
                      debug_log := debug_log w ++ [record];
                      calls := calls w |}).

(** A request to a collaborator: noted in [calls], then answered. *)
Definition request {A} (s : strategy) (params : dict)
    (f : Net -> result A * Net) : Py A :=
  fun w =>
    let (r, n') := f (net w) in
    (r, {| net := n'; stdout := stdout w; debug_log := debug_log w;
           calls := calls w ++ [{| call_strategy := s;
                                   call_params := params |}] |}).

End Core.

Declare Scope py_scope.
Delimit Scope py_scope with py.
Notation "x <- m ;; k" := (bind m (fun x => k))
  (at level 100, m at next level, right associativity) : py_scope.
Notation "' p <- m ;; k" := (bind m (fun x => let p := x in k))
  (at level 100, p pattern, m at next level, right associativity) : py_scope.
Notation "m ;;; k" := (bind m (fun _ => k))
  (at level 100, right associativity) : py_scope.
Notation "x <~ r ;; k" := (rbind r (fun x => k))
  (at level 100, r at next level, right associativity) : py_scope.

Local Open Scope py_scope.

(* ===================================================================== *)
(** ** Field normalizers *)
(* ===================================================================== *)

(** [0 if stops == "Nonstop" else int(stops.split(" ", 1)[0])] inside
    [try: ... except ValueError: stops_fmt = "Unknown"]. *)
Definition stops_fmt_of (stops : string) : result stops_value :=
  rtry
    (if String.eqb stops "Nonstop" then Ok (StopsInt 0)
     else token <~ PyStr.getitem (PyStr.split_space_1 stops) 0 ;;
          n <~ PyStr.int token ;;
          Ok (StopsInt n))
    is_ValueError
    (fun _ => Ok (StopsStr "Unknown")).

(** [x or default] on strings: the empty string is falsy. *)
Definition str_or (x default : string) : string :=
  if String.eqb x "" then default else x.

(** [x or None] *)
Definition str_or_None (x : string) : option string :=
  if String.eqb x "" then None else Some x.

(** [" ".join(t.split())] *)
Definition collapse_whitespace (t : string) : string :=
  PyStr.join " " (PyStr.split_ws t).

Section Extraction.
Context {C : Collaborators}.

(** [safe(n)] is [n or blank]; [blank.text(...)] is the empty string. *)
Inductive node_or_blank : Type :=
| a_node (n : LexborNode)
| blank.

Definition safe (n : option LexborNode) : node_or_blank :=
  match n with
  | Some n => a_node n
  | None => blank
  end.

Definition text_of (n : node_or_blank) (strip : bool) : string :=
  match n with
  | a_node n => node_text n strip
  | blank => ""
  end.

(** [n.attributes] where [n] may be [None]. *)
Definition attributes_of (n : option LexborNode)
    : result (list (string * option string)) :=
  match n with
  | Some n => Ok (attributes n)
  | None => Raise AttributeError
  end.

(** [extract_airline_code_and_flight_number(s)]; [re.findall] refuses
    [None] with a [TypeError]. *)
Definition extract_airline_code_and_flight_number (s : option string)
    : Py (string * string) :=
  match s with
  | None => raise TypeError
  | Some s =>
      let result := Re.findall s in
      (match result with
       | [] => print ("No airline code and flight number found in: " ++ s)
       | _ :: _ => ret tt
       end) ;;;
      first <- lift (PyStr.getitem result 0) ;;
      ret (fst first, snd first)
  end.

(** The body of the inner loop: one item appended to [flights]. *)
Definition parse_item (is_best_flight : bool) (item : LexborNode)
    (flights : list Flight) : Py (list Flight) :=
  let name :=
    text_of (safe (css_first item "div.sSHqwe.tPgKwe.ogfYpf span")) true in
  let dp_ar_node := css item "span.mv1WYe div" in
  times <- lift
    (rtry
       (d <~ PyStr.getitem dp_ar_node 0 ;;
        a <~ PyStr.getitem dp_ar_node 1 ;;
        Ok (node_text d true, node_text a true))
       is_IndexError
       (fun _ => Ok ("", ""))) ;;
  let departure_time := fst times in
  let arrival_time := snd times in
  let time_ahead := text_of (safe (css_first item "span.bOzv6")) false in
  let duration := text_of (safe (css_first item "li div.Ak5kof div")) false in
  let stops := text_of (safe (css_first item ".BbR8Ec .ogfYpf")) false in
  let delay :=
    str_or_None (text_of (safe (css_first item ".GsCCve")) false) in
  let price :=
    str_or (text_of (safe (css_first item ".YMlIz.FpEdX")) false) "0" in
  stops_fmt <- lift (stops_fmt_of stops) ;;
  decoded <-
    try_except
      (attrs <- lift (attributes_of (css_first item ".NZRfve")) ;;
       url <- lift (dict_getitem attrs "data-travelimpactmodelwebsiteurl") ;;
       extract_airline_code_and_flight_number url)
      is_ValueError
      (fun _ =>
         raise (FlightParsingError
                  "Can't parse airline code or flight number")) ;;
  ret (flights ++
       [{| is_best := is_best_flight;
           name := name;
           departure := collapse_whitespace departure_time;
           arrival := collapse_whitespace arrival_time;
           arrival_time_ahead := time_ahead;
           duration := duration;
           stops := stops_fmt;
           delay := delay;
           price := PyStr.replace "," "" price;
           airline_code := fst decoded;
           flight_number := snd decoded |}])%list.

(** [for item in items: ...], threading the list the body appends to. *)
Fixpoint for_items (is_best_flight : bool) (items : list LexborNode)
    (flights : list Flight) : Py (list Flight) :=
  match items with
  | [] => ret flights
  | item :: rest =>
      flights' <- parse_item is_best_flight item flights ;;
      for_items is_best_flight rest flights'
  end.

(** The items of group [i] the loop visits:
    [fl.css("ul.Rk10dc li")[: (None if allow or i == 0 else -1)]]. *)
Definition retained_items (dangerously_allow_looping_last_item : bool)
    (i : nat) (fl : LexborNode) : list LexborNode :=
  PyStr.slice_to
    (if (dangerously_allow_looping_last_item || Nat.eqb i 0)%bool
     then None else Some (-1))
    (css fl "ul.Rk10dc li").

(** [for i, fl in enumerate(groups): ...], from index [i] on. *)
Fixpoint for_groups (dangerously_allow_looping_last_item : bool) (i : nat)
    (groups : list LexborNode) (flights : list Flight)
    : Py (list Flight) :=
  match groups with
  | [] => ret flights
  | fl :: rest =>
      let is_best_flight := Nat.eqb i 0 in
      flights' <-
        for_items is_best_flight
          (retained_items dangerously_allow_looping_last_item i fl)
          flights ;;
      for_groups dangerously_allow_looping_last_item (S i) rest flights'
  end.

Definition parse_response (r : Response)
    (dangerously_allow_looping_last_item : bool) : Py Result :=
  let parser := LexborHTMLParser (text r) in
  match css_first parser date_too_far_selector with
  | Some _ =>
      raise (FlightDateTooFarError
               "Requested flight date is too far in the future")
  | None =>
      match css_first parser required_selector with
      | None =>
          raise (FlightParsingError
                   "Required qJTHM element not found in response")
      | Some _ =>
          flights <-
            for_groups dangerously_allow_looping_last_item 0
              (css parser groups_selector) [] ;;
          let current_price :=
            text_of (safe (css_first parser "span.gOatQ")) false in
          ret {| current_price := current_price; flights := flights |}
      end
  end.

End Extraction.

(* ===================================================================== *)
(** ** Fetching *)
(* ===================================================================== *)

(** [str(n)] for an [int]. *)
Definition str_of_int (n : Z) : string := NilZero.string_of_int (Z.to_int n).

Definition fetch_mode_eq_dec (a b : fetch_mode) : {a = b} + {a <> b}.
Proof. decide equality. Defined.

(** How many times a call in [mode] may still call itself. *)
Definition escalations_left (mode : fetch_mode) : nat :=
  match mode with
  | fallback => 1
  | _ => 0
  end.

Section Fetching.
Context {C : Collaborators}.

Definition fetch (params : dict) (proxy : option string) : Py Response :=
  let client := {| impersonate := "chrome_126"; verify := false;
                   client_proxy := proxy |} in
  res <- request DirectHttp params
           (Client_get client "https://www.google.com/travel/flights" params
              [("CONSENT", "PENDING+987");
               ("SOCS",
                "CAESHAgBEhJnd3NfMjAyMzA4MTAtMF9SQzIaAmRlIAEaBgiAo_CmBg")]) ;;
  if status_code res =? 200 then ret res
  else raise (AssertionError
                (str_of_int (status_code res) ++ " Result: "
                   ++ text_markdown res)).

(** The [params] dict of [get_flights_from_filter]. *)
Definition build_params (filter : TFSData) (currency : string) : dict :=
  [("tfs", as_b64 filter); ("hl", "en"); ("tfu", "EgQIABABIgA");
   ("curr", currency)].

(** The first half of [get_flights_from_filter]: the document, by the
    strategy of [mode]. *)
Definition fetch_by_mode (mode : fetch_mode) (params : dict)
    (proxy : option string) : Py Response :=
  match mode with
  | common | fallback =>
      try_except (fetch params proxy) is_AssertionError
        (fun e =>
           if fetch_mode_eqb mode fallback
           then request RemoteBrowser params
                  (fallback_playwright_fetch params)
           else raise e)
  | local =>
      request LocalBrowser params (local_playwright_fetch params)
  | force_fallback =>
      request RemoteBrowser params (fallback_playwright_fetch params)
  end.

(** The recursive call passes [filter], [mode="local"] and [proxy]; its
    [currency] is the default, the empty string. *)
Equations get_flights_from_filter (filter : TFSData) (currency : string)
    (mode : fetch_mode) (proxy : option string) (w : World)
    : result Result * World
    by wf (escalations_left mode) lt :=
  get_flights_from_filter filter currency mode proxy w :=
    let params := build_params filter currency in
    (res <- fetch_by_mode mode params proxy ;;
     try_except (parse_response res false) is_RuntimeError
       (fun e =>
          logger_debug ("RuntimeError in get_flights_from_filter: "
                          ++ exn_str e) ;;;
          match fetch_mode_eq_dec mode fallback with
          | left _ =>
              fun w' => get_flights_from_filter filter "" local proxy w'
          | right _ => raise e
          end)) w.

End Fetching.

(** The values of [trip] and [seat]. *)
Inductive trip_kind : Type :=
| round_trip
| one_way
| multi_city.

Inductive seat_kind : Type :=
| economy
| premium_economy
| business
| first_class.

Section GetFlights.
Context {C : Collaborators}.

(** [flights_impl.FlightData] and [flights_impl.Passengers], and
    [TFSData.from_interface], which builds the query and may raise; none of
    them is defined in this module. *)
Variables FlightData Passengers : Type.
Variable from_interface :
  list FlightData -> trip_kind -> Passengers -> seat_kind -> option Z ->
  result TFSData.

(** The call passes the query and [mode=fetch_mode]; [currency] and
    [proxy] keep their defaults, the empty string and [None]. *)
Definition get_flights (flight_data : list FlightData) (trip : trip_kind)
    (passengers : Passengers) (seat : seat_kind) (fetch_mode : fetch_mode)
    (max_stops : option Z) : Py Result :=
  filter <- lift (from_interface flight_data trip passengers seat
                    max_stops) ;;
  get_flights_from_filter filter "" fetch_mode None.

End GetFlights.

(* ===================================================================== *)
(** ** The list object of [parse_response] *)
(* ===================================================================== *)

(** [parse_response] above threads the value of [flights] through its
    loops.  Here the same code is read with [flights] as what it is in
    Python: a reference to a list object, which [append] changes in place.
    The list objects of the interpreter are the cells of a [Store]; they
    are named by their position, and they outlive the call that made
    them. *)
Definition Store : Type := list (list Flight).

(** Cell [a] changed by [f]; a reference always names a cell, and on any
    other number nothing changes. *)
Fixpoint update_cell (a : nat) (f : list Flight -> list Flight)
    (st : Store) : Store :=
  match st, a with
  | [], _ => []
  | cell :: rest, O => f cell :: rest
  | cell :: rest, S a' => cell :: update_cell a' f rest
  end.

Section ListObject.
Context {C : Collaborators}.

Definition PyS (A : Type) : Type :=
  Store -> World -> result A * Store * World.

Definition ret_s {A} (a : A) : PyS A := fun st w => (Ok a, st, w).

Definition raise_s {A} (e : exn) : PyS A := fun st w => (Raise e, st, w).

Definition bind_s {A B} (m : PyS A) (k : A -> PyS B) : PyS B :=
  fun st w =>
    match m st w with
    | (Ok a, st', w') => k a st' w'
    | (Raise e, st', w') => (Raise e, st', w')
    end.

(** A computation that touches no list object. *)
Definition lift_s {A} (m : Py A) : PyS A :=
  fun st w => let (r, w') := m w in (r, st, w').

(** [[]]: a new list object, empty; its reference. *)
Definition new_list : PyS nat :=
  fun st w => (Ok (List.length st), (st ++ [[]])%list, w).

(** [l.append(x)] *)
Definition list_append (l : nat) (x : Flight) : PyS unit :=
  fun st w => (Ok tt, update_cell l (fun cell => cell ++ [x])%list st, w).

(** The elements of [l], as an iteration over it reads them. *)
Definition list_items (l : nat) : PyS (list Flight) :=
  fun st w => (Ok (nth l st []), st, w).

(** The body of the inner loop up to the dict it builds. *)
Definition item_fields (is_best_flight : bool) (item : LexborNode)
    : Py Flight :=
  (let name :=
     text_of (safe (css_first item "div.sSHqwe.tPgKwe.ogfYpf span")) true in
   let dp_ar_node := css item "span.mv1WYe div" in
   times <- lift
     (rtry
        (d <~ PyStr.getitem dp_ar_node 0 ;;
         a <~ PyStr.getitem dp_ar_node 1 ;;
         Ok (node_text d true, node_text a true))
        is_IndexError
        (fun _ => Ok ("", ""))) ;;
   let departure_time := fst times in
   let arrival_time := snd times in
   let time_ahead := text_of (safe (css_first item "span.bOzv6")) false in
   let duration :=
     text_of (safe (css_first item "li div.Ak5kof div")) false in
   let stops := text_of (safe (css_first item ".BbR8Ec .ogfYpf")) false in
   let delay :=
     str_or_None (text_of (safe (css_first item ".GsCCve")) false) in
   let price :=
     str_or (text_of (safe (css_first item ".YMlIz.FpEdX")) false) "0" in
   stops_fmt <- lift (stops_fmt_of stops) ;;
   decoded <-
     try_except
       (attrs <- lift (attributes_of (css_first item ".NZRfve")) ;;
        url <- lift (dict_getitem attrs "data-travelimpactmodelwebsiteurl") ;;
        extract_airline_code_and_flight_number url)
       is_ValueError
       (fun _ =>
          raise (FlightParsingError
                   "Can't parse airline code or flight number")) ;;
   ret {| is_best := is_best_flight;
          name := name;
          departure := collapse_whitespace departure_time;
          arrival := collapse_whitespace arrival_time;
          arrival_time_ahead := time_ahead;
          duration := duration;
          stops := stops_fmt;
          delay := delay;
          price := PyStr.replace "," "" price;
          airline_code := fst decoded;
          flight_number := snd decoded |})%py.

(** The body of the inner loop: [flights.append({...})]. *)
Definition parse_item_at (is_best_flight : bool) (item : LexborNode)
    (flights : nat) : PyS unit :=
  bind_s (lift_s (item_fields is_best_flight item))
    (fun fl => list_append flights fl).

Fixpoint for_items_at (is_best_flight : bool) (items : list LexborNode)
    (flights : nat) : PyS unit :=
  match items with
  | [] => ret_s tt
  | item :: rest =>
      bind_s (parse_item_at is_best_flight item flights)
        (fun _ => for_items_at is_best_flight rest flights)
  end.

Fixpoint for_groups_at (dangerously_allow_looping_last_item : bool)
    (i : nat) (groups : list LexborNode) (flights : nat) : PyS unit :=
  match groups with
  | [] => ret_s tt
  | fl :: rest =>
      bind_s
        (for_items_at (Nat.eqb i 0)
           (retained_items dangerously_allow_looping_last_item i fl)
           flights)
        (fun _ =>
           for_groups_at dangerously_allow_looping_last_item (S i) rest
             flights)
  end.

(** [parse_response], with the list that [flights] names got from
    [make_list]. *)
Definition parse_response_with (make_list : PyS nat) (r : Response)
    (dangerously_allow_looping_last_item : bool) : PyS Result :=
  let parser := LexborHTMLParser (text r) in
  match css_first parser date_too_far_selector with
  | Some _ =>
      raise_s (FlightDateTooFarError
                 "Requested flight date is too far in the future")
  | None =>
      match css_first parser required_selector with
      | None =>
          raise_s (FlightParsingError
                     "Required qJTHM element not found in response")
      | Some _ =>
          bind_s make_list
            (fun flights =>
               bind_s
                 (for_groups_at dangerously_allow_looping_last_item 0
                    (css parser groups_selector) flights)
                 (fun _ =>
                    let current_price :=
                      text_of (safe (css_first parser "span.gOatQ")) false in
                    bind_s (list_items flights)
                      (fun items =>
                         ret_s {| current_price := current_price;
                                  flights := items |})))
      end
  end.

(** [parse_response] as it is written: [flights = []] makes the list
    anew in every call. *)
Definition parse_response_in_store : Response -> bool -> PyS Result :=
  parse_response_with new_list.

(** For contrast, what the code does not do: a list made once, when the
    module is loaded, and named by every call. *)
Definition parse_response_sharing (l : nat) : Response -> bool -> PyS Result :=
  parse_response_with (ret_s l).

End ListObject.

(* ===================================================================== *)
(** ** A reference implementation of the collaborators *)
(* ===================================================================== *)

(** A small document model that answers the selectors of this module, an
    HTML parser given as a table of pages, and a transport whose answers
    follow a script.  The examples below run on it. *)
Module Ref.

Definition attrs_t : Type := list (string * option string).

Inductive tree : Type :=
| Elem (tag : string) (attrs : attrs_t) (children : list tree)
| Txt (data : string).

(** A node of a document: the subtree, and the elements above it, nearest
    first. *)
Record node : Type := {
  above : list (string * attrs_t);
  here : tree
}.

(** One compound selector: [tag.class1.class2[attr="value"]]. *)
Record compound : Type := {
  c_tag : option string;
  c_classes : list string;
  c_attrs : list (string * string)
}.

(** Compounds joined by the descendant combinator, the subject last; a
    selector is a comma-separated list of those. *)
Definition complex : Type := list compound.
Definition selector : Type := list complex.

(** An upper-case ASCII letter as its lower-case one. *)
Definition lower_char (c : ascii) : ascii :=
  if PyStr.is_upper_AZ c then ascii_of_N (PyStr.code c + 32) else c.

Definition lower (s : string) : string :=
  PyStr.str (map lower_char (PyStr.chars s)).

(** The whitespace of HTML, which separates the names of a [class]
    attribute: tab, line feed, form feed, carriage return, space. *)
Definition is_html_space (c : ascii) : bool :=
  existsb (N.eqb (PyStr.code c)) [9; 10; 12; 13; 32]%N.

Fixpoint class_names_aux (cs : list ascii) (cur : list ascii)
    : list string :=
  match cs with
  | [] => match cur with [] => [] | _ => [PyStr.str (rev cur)] end
  | c :: r =>
      if is_html_space c
      then match cur with
           | [] => class_names_aux r []
           | _ => PyStr.str (rev cur) :: class_names_aux r []
           end
      else class_names_aux r (c :: cur)
  end.

Definition class_names (v : string) : list string :=
  class_names_aux (PyStr.chars v) [].

(** The pages here have no doctype, and in such a document a class
    selector matches a class name without regard to ASCII case. *)
Definition has_class (a : attrs_t) (cls : string) : bool :=
  match dict_get a "class" with
  | Some (Some v) =>
      existsb (fun name => String.eqb (lower cls) (lower name))
        (class_names v)
  | _ => false
  end.

Definition has_attr (a : attrs_t) (kv : string * string) : bool :=
  match dict_get a (fst kv) with
  | Some (Some v) => String.eqb v (snd kv)
  | _ => false
  end.

Definition matches_compound (c : compound) (e : string * attrs_t) : bool :=
  (match c_tag c with Some t => String.eqb t (fst e) | None => true end
   && forallb (has_class (snd e)) (c_classes c)
   && forallb (has_attr (snd e)) (c_attrs c))%bool.

(** The compounds left of the subject, nearest first, each matched by
    some element further up. *)
Fixpoint matches_above (cs : list compound) (up : list (string * attrs_t))
    : bool :=
  match cs with
  | [] => true
  | c :: cs' =>
      (fix climb (up : list (string * attrs_t)) : bool :=
         match up with
         | [] => false
         | e :: up' =>
             if matches_compound c e then matches_above cs' up'
             else climb up'
         end) up
  end.

Definition matches_complex (cx : complex) (n : node) : bool :=
  match rev cx, here n with
  | subject :: outer, Elem t a _ =>
      (matches_compound subject (t, a) && matches_above outer (above n))%bool
  | _, _ => false
  end.

Definition matches (sel : selector) (n : node) : bool :=
  existsb (fun cx => matches_complex cx n) sel.

(** The elements strictly below a node, in document order. *)
Fixpoint descendants (up : list (string * attrs_t)) (t : tree)
    : list node :=
  match t with
  | Txt _ => []
  | Elem tag a children =>
      flat_map
        (fun c =>
           match c with
           | Txt _ => []
           | Elem _ _ _ =>
               {| above := (tag, a) :: up; here := c |}
                 :: descendants ((tag, a) :: up) c
           end)
        children
  end.

Definition tag_ (t : string) : compound :=
  {| c_tag := Some t; c_classes := []; c_attrs := [] |}.
Definition tag_classes (t : string) (cls : list string) : compound :=
  {| c_tag := Some t; c_classes := cls; c_attrs := [] |}.
Definition classes (cls : list string) : compound :=
  {| c_tag := None; c_classes := cls; c_attrs := [] |}.
Definition tag_attrs (t : string) (kv : list (string * string)) : compound :=
  {| c_tag := Some t; c_classes := []; c_attrs := kv |}.

(** The selectors of [core.py], parsed. *)
Definition known_selectors : list (string * selector) :=
  [ (date_too_far_selector,
     [[tag_attrs "div" [("jsname", "qJTHM"); ("class", "FXkZv fXx9Lc")]]]);
    (required_selector, [[tag_attrs "div" [("jsname", "qJTHM")]]]);
    (groups_selector,
     [[tag_attrs "div" [("jsname", "IWWDBc")]];
      [tag_attrs "div" [("jsname", "YdtKid")]]]);
    ("ul.Rk10dc li", [[tag_classes "ul" ["Rk10dc"]; tag_ "li"]]);
    ("div.sSHqwe.tPgKwe.ogfYpf span",
     [[tag_classes "div" ["sSHqwe"; "tPgKwe"; "ogfYpf"]; tag_ "span"]]);
    ("span.mv1WYe div", [[tag_classes "span" ["mv1WYe"]; tag_ "div"]]);
    ("span.bOzv6", [[tag_classes "span" ["bOzv6"]]]);
    ("li div.Ak5kof div",
     [[tag_ "li"; tag_classes "div" ["Ak5kof"]; tag_ "div"]]);
    (".BbR8Ec .ogfYpf", [[classes ["BbR8Ec"]; classes ["ogfYpf"]]]);
    (".GsCCve", [[classes ["GsCCve"]]]);
    (".YMlIz.FpEdX", [[classes ["YMlIz"; "FpEdX"]]]);
    (".NZRfve", [[classes ["NZRfve"]]]);
    ("span.gOatQ", [[tag_classes "span" ["gOatQ"]]]) ].

(** A selector this module never uses matches nothing here. *)
Definition parse_selector (s : string) : selector :=
  match dict_get known_selectors s with
  | Some sel => sel
  | None => []
  end.

(** [css] tries the node itself, then the elements below it, in document
    order. *)
Definition select (n : node) (s : string) : list node :=
  filter (matches (parse_selector s))
    (n :: descendants (above n) (here n)).

Definition select_first (n : node) (s : string) : option node :=
  hd_error (select n s).

(** [s.strip()] *)
Definition strip (s : string) : string :=
  PyStr.str
    (rev (PyStr.dropwhile PyStr.is_space
            (rev (PyStr.dropwhile PyStr.is_space (PyStr.chars s))))).

(** [text(strip=...)]: the text nodes below, in order, each stripped when
    asked, joined without a separator. *)
Fixpoint tree_text (strip_parts : bool) (t : tree) : string :=
  match t with
  | Txt d => if strip_parts then strip d else d
  | Elem _ _ children =>
      fold_right (fun c acc => tree_text strip_parts c ++ acc) "" children
  end.

Definition node_attributes (n : node) : attrs_t :=
  match here n with
  | Elem _ a _ => a
  | Txt _ => []
  end.

(** What [lexbor] gives for a text that is no page of the table: an empty
    [html] document. *)
Definition empty_document : tree :=
  Elem "html" [] [Elem "head" [] []; Elem "body" [] []].

Definition parse_html (pages : list (string * tree)) (html : string) : node :=
  {| above := [];
     here := match dict_get pages html with
             | Some t => t
             | None => empty_document
             end |}.

(** The transport: the answer to a request depends on the strategy, the
    parameters and how many requests came before. *)
Definition script_t : Type := strategy -> dict -> nat -> result Response.

Lemma matches_compound_narrow t kv kvs e :
  matches_compound (tag_attrs t (kv :: kvs)) e = true ->
  matches_compound (tag_attrs t [kv]) e = true.
Proof.
  unfold matches_compound, tag_attrs.
  cbn [c_tag c_classes c_attrs forallb].
  intros H.
  apply Bool.andb_true_iff in H as [H1 H2].
  apply Bool.andb_true_iff in H2 as [H2 _].
  rewrite H1, H2. reflexivity.
Qed.

Lemma matches_narrow (n : node) :
  matches (parse_selector date_too_far_selector) n = true ->
  matches (parse_selector required_selector) n = true.
Proof.
  replace (parse_selector date_too_far_selector)
    with [[tag_attrs "div" [("jsname", "qJTHM"); ("class", "FXkZv fXx9Lc")]]]
    by reflexivity.
  replace (parse_selector required_selector)
    with [[tag_attrs "div" [("jsname", "qJTHM")]]] by reflexivity.
  unfold matches, matches_complex.
  cbn [existsb rev app matches_above].
  destruct (here n) as [t a ch|d]; [|discriminate].
  rewrite !Bool.orb_false_r, !Bool.andb_true_r.
  apply matches_compound_narrow.
Qed.

Lemma select_first_narrow (n : node) :
  select_first n required_selector = None ->
  select_first n date_too_far_selector = None.
Proof.
  unfold select_first, select.
  generalize (n :: descendants (above n) (here n)). intros l.
  induction l as [|d ds IH]; [reflexivity|].
  cbn [filter].
  destruct (matches (parse_selector required_selector) d) eqn:Hr;
    [discriminate|].
  destruct (matches (parse_selector date_too_far_selector) d) eqn:Hd.
  - apply matches_narrow in Hd. congruence.
  - exact IH.
Qed.

Definition collaborators (pages : list (string * tree)) (script : script_t)
    : Collaborators :=
  {| LexborNode := node;
     LexborHTMLParser := parse_html pages;
     css := select;
     css_first := select_first;
     node_text := fun n strip_parts => tree_text strip_parts (here n);
     attributes := node_attributes;
     css_first_css := fun _ _ => eq_refl;
     css_narrow := select_first_narrow;
     TFSData := string;
     as_b64 := fun f => f;
     Net := nat;
     Client_get := fun _ _ params _ n => (script DirectHttp params n, S n);
     fallback_playwright_fetch :=
       fun params n => (script RemoteBrowser params n, S n);
     local_playwright_fetch :=
       fun params n => (script LocalBrowser params n, S n) |}.

End Ref.

(* ===================================================================== *)
(** ** Example pages *)
(* ===================================================================== *)

Module Pages.
Import Ref.

(** The HTML text of a tree, attribute values in double quotes. *)
Fixpoint render (t : tree) : string :=
  match t with
  | Txt d => d
  | Elem tag a children =>
      "<" ++ tag
        ++ fold_right
             (fun kv acc =>
                " " ++ fst kv
                  ++ match snd kv with
                     | Some v => "=" ++ dq ++ v ++ dq
                     | None => ""
                     end ++ acc)
             "" a
        ++ ">"
        ++ fold_right (fun c acc => render c ++ acc) "" children
        ++ "</" ++ tag ++ ">"
  end.

Definition el (tag cls : string) (children : list tree) : tree :=
  Elem tag [("class", Some cls)] children.

(** The fields of an offer, without the node that carries the travel
    impact URL. *)
Definition offer_fields (airline stops_text price_text : string)
    : list tree :=
  [ el "div" "sSHqwe tPgKwe ogfYpf" [Elem "span" [] [Txt airline]];
    el "span" "mv1WYe"
      [Elem "div" [] [Txt " 8:00  AM "]; Elem "div" [] [Txt "11:30 AM"]];
    el "div" "Ak5kof" [Elem "div" [] [Txt "5 hr 30 min"]];
    el "div" "BbR8Ec" [el "span" "ogfYpf" [Txt stops_text]];
    el "div" "YMlIz FpEdX" [Elem "span" [] [Txt price_text]] ].

Definition url_node (a : attrs_t) : tree :=
  Elem "div" (("class", Some "NZRfve") :: a) [].

Definition offer (airline stops_text price_text url : string) : tree :=
  Elem "li" []
    (offer_fields airline stops_text price_text
       ++ [url_node [("data-travelimpactmodelwebsiteurl", Some url)]])%list.

Definition group (jsname : string) (items : list tree) : tree :=
  Elem "div" [("jsname", Some jsname)] [el "ul" "Rk10dc" items].

Definition page (body : list tree) : tree :=
  Elem "html" [] [Elem "head" [] []; Elem "body" [] body].

Definition results_marker : tree :=
  Elem "div" [("jsname", Some "qJTHM")] [].

Definition summary : tree := el "span" "gOatQ" [Txt "typical"].

Definition lookup (itinerary : string) : string :=
  "https://www.travelimpactmodel.org/lookup/flight?itinerary=" ++ itinerary.

(** One best group of two offers and one other group of three. *)
Definition results_page : tree :=
  page
    [ results_marker; summary;
      group "IWWDBc"
        [ offer "United" "Nonstop" "$1,234" (lookup "SFO-JFK-UA-1234-20250101");
          offer "Delta" "1 stop" "$980" (lookup "SFO-JFK-DL-88-20250101") ];
      group "YdtKid"
        [ offer "Alaska" "2 stops" "$1,050" (lookup "SFO-JFK-AS-310-20250101");
          offer "JetBlue" "Nonstop" "" (lookup "SFO-JFK-B6-16-20250101");
          offer "American" "mystery" "$2,000,000"
            (lookup "SFO-JFK-AA-22-20250101") ] ].

(** The page shown for a date outside the supported range; it carries
    flight groups as well. *)
Definition date_too_far_page : tree :=
  page
    [ Elem "div" [("jsname", Some "qJTHM"); ("class", Some "FXkZv fXx9Lc")]
        [Txt "No results: the date is too far in the future"];
      group "IWWDBc"
        [offer "United" "Nonstop" "$1,234"
           (lookup "SFO-JFK-UA-1234-20250101")] ].

(** Flight groups, but no [qJTHM] element. *)
Definition no_marker_page : tree :=
  page
    [ group "IWWDBc"
        [offer "United" "Nonstop" "$1,234"
           (lookup "SFO-JFK-UA-1234-20250101")] ].

(** An offer whose URL holds no [-CODE-NUMBER-]. *)
Definition bad_url_page : tree :=
  page
    [ results_marker;
      group "IWWDBc"
        [offer "United" "Nonstop" "$1,234" (lookup "SFO-JFK-20250101")] ].

(** An offer whose [NZRfve] node lacks the attribute. *)
Definition no_attribute_page : tree :=
  page
    [ results_marker;
      group "IWWDBc"
        [Elem "li" []
           (offer_fields "United" "Nonstop" "$1,234" ++ [url_node []])%list] ].

(** An offer without a [NZRfve] node. *)
Definition no_url_node_page : tree :=
  page
    [ results_marker;
      group "IWWDBc"
        [Elem "li" [] (offer_fields "United" "Nonstop" "$1,234")] ].

Definition all_pages : list (string * tree) :=
  map (fun t => (render t, t))
    [ results_page; date_too_far_page; no_marker_page; bad_url_page;
      no_attribute_page; no_url_node_page ].

Definition response_of (t : tree) : Response :=
  {| status_code := 200; text := render t; text_markdown := "" |}.

(** The provider answers a plain HTTP request with [direct] and a browser,
    remote or local, with [browser]. *)
Definition script_of (direct browser : tree) : script_t :=
  fun s _ _ =>
    match s with
    | DirectHttp => Ok (response_of direct)
    | RemoteBrowser | LocalBrowser => Ok (response_of browser)
    end.

Definition site (direct browser : tree) : Collaborators :=
  collaborators all_pages (script_of direct browser).

Definition world0 (direct browser : tree)
    : @World (site direct browser) :=
  @Build_World (site direct browser) 0%nat [] [] [].

End Pages.

(* ===================================================================== *)
(** ** Notions the properties are stated with *)
(* ===================================================================== *)

(** The text before the first space character, all of it when there is
    none. *)
Fixpoint until_space (cs : list ascii) : list ascii :=
  match cs with
  | [] => []
  | c :: r => if Ascii.eqb c " " then [] else c :: until_space r
  end.

Definition leading_token (s : string) : string :=
  PyStr.str (until_space (PyStr.chars s)).

(** The stop count as the specification words it: ["Nonstop"] is 0;
    otherwise the leading whitespace-delimited token is parsed as an
    integer, and a failed parse gives ["Unknown"]. *)
Definition stops_fmt_spec (stops : string) : stops_value :=
  if String.eqb stops "Nonstop" then StopsInt 0
  else match PyStr.split_ws stops with
       | token :: _ =>
           match PyStr.int token with
           | Ok n => StopsInt n
           | Raise _ => StopsStr "Unknown"
           end
       | [] => StopsStr "Unknown"
       end.

(** A text with every comma taken out. *)
Definition remove_commas (s : string) : string :=
  PyStr.str (filter (fun c => negb (Ascii.eqb c ",")) (PyStr.chars s)).

Definition no_comma (s : string) : Prop :=
  ~ In ","%char (PyStr.chars s).

(** An airline code and a flight number the pattern accepts. *)
Definition pattern_groups (code number : string) : Prop :=
  (List.length (PyStr.chars code) = 2)%nat /\
  forallb Re.is_code_char (PyStr.chars code) = true /\
  (2 <= List.length (PyStr.chars number) <= 4)%nat /\
  forallb PyStr.is_digit (PyStr.chars number) = true.

(** [-code-number-] stands somewhere in [s]. *)
Definition occurs_in (code number s : string) : Prop :=
  exists before after : string,
    s = before ++ "-" ++ code ++ "-" ++ number ++ "-" ++ after.

(** The pattern matches at position [pos] of [s], with these groups:
    [pos] characters, then [-code-number-], where the code and the number
    have the shape the pattern accepts. *)
Definition matches_at (s : string) (pos : nat) (code number : string)
    : Prop :=
  exists before after : string,
    s = before ++ "-" ++ code ++ "-" ++ number ++ "-" ++ after
    /\ String.length before = pos
    /\ pattern_groups code number.

(** ["2"], a tab, ["stops"]. *)
Definition two_tab_stops : string :=
  "2" ++ String (ascii_of_nat 9) "stops".

(* ===================================================================== *)
(** ** Facts about the built-ins *)
(* ===================================================================== *)

Unset Implicit Arguments.

Module PyFacts.
Import PyStr.

Lemma chars_str (cs : list ascii) : chars (str cs) = cs.
Proof. apply list_ascii_of_string_of_list_ascii. Qed.

Lemma str_chars (s : string) : str (chars s) = s.
Proof. apply string_of_list_ascii_of_string. Qed.

Lemma chars_app (a b : string) : chars (a ++ b) = (chars a ++ chars b)%list.
Proof.
  induction a as [|c a IH]; [reflexivity|].
  cbn. unfold chars in IH. rewrite IH. reflexivity.
Qed.

Lemma str_app (a b : list ascii) : str (a ++ b) = str a ++ str b.
Proof.
  induction a as [|c a IH]; [reflexivity|].
  cbn. unfold str in IH. rewrite IH. reflexivity.
Qed.

Lemma split_space_1_aux_head (cs acc : list ascii) :
  getitem (split_space_1_aux cs acc) 0
  = Ok (str (rev acc ++ until_space cs)).
Proof.
  revert acc. induction cs as [|c r IH]; intros acc; cbn [split_space_1_aux until_space].
  - rewrite app_nil_r. reflexivity.
  - destruct (Ascii.eqb c " ").
    + rewrite app_nil_r. reflexivity.
    + rewrite IH. cbn [rev]. rewrite <- app_assoc. reflexivity.
Qed.

(** [s.split(" ", 1)] is never empty, and its first element is the text
    before the first space. *)
Lemma split_space_1_head (s : string) :
  getitem (split_space_1 s) 0 = Ok (leading_token s).
Proof. apply split_space_1_aux_head. Qed.

(** [int] raises nothing but [ValueError]. *)
Lemma int_raises_ValueError (s : string) (e : exn) :
  int s = Raise e -> e = ValueError.
Proof.
  unfold int.
  destruct (match dropwhile is_int_space (chars s) with
            | [] => (false, dropwhile is_int_space (chars s))
            | c :: r =>
                if Ascii.eqb c "+" then (false, r)
                else if Ascii.eqb c "-" then (true, r)
                else (false, dropwhile is_int_space (chars s))
            end) as [negative body].
  destruct (scan_digits body false false 0 0) as [[[v n] rest]|];
    [|congruence].
  destruct (dropwhile is_int_space rest); [|congruence].
  destruct (Nat.ltb int_max_str_digits n); congruence.
Qed.

Lemma replace_aux_comma (cs : list ascii) :
  replace_aux [","%char] [] cs 0
  = filter (fun c => negb (Ascii.eqb c ",")) cs.
Proof.
  induction cs as [|c r IH]; [reflexivity|].
  cbn [replace_aux is_prefix filter List.length Nat.sub app].
  rewrite Ascii.eqb_sym, Bool.andb_true_r.
  destruct (Ascii.eqb c ","); cbn [negb]; rewrite IH; reflexivity.
Qed.

(** [s.replace(",", "")] takes every comma out. *)
Lemma replace_comma (s : string) : replace "," "" s = remove_commas s.
Proof.
  unfold replace, remove_commas.
  change (chars ",") with [","%char]. change (chars "") with (@nil ascii).
  rewrite replace_aux_comma. reflexivity.
Qed.

Lemma no_comma_remove_commas (s : string) : no_comma (remove_commas s).
Proof.
  unfold no_comma, remove_commas. rewrite chars_str.
  intros H. apply filter_In in H as [_ H].
  rewrite Ascii.eqb_refl in H. discriminate.
Qed.

Lemma slice_to_None {A} (l : list A) : slice_to None l = l.
Proof. reflexivity. Qed.

(** [l[:-1]] is [l] without its last element. *)
Lemma slice_to_minus_1 {A} (l : list A) :
  slice_to (Some (-1)) l = removelast l.
Proof.
  unfold slice_to.
  change (-1 <? 0) with true. cbv iota.
  replace (Z.to_nat (Z.max 0 (Z.of_nat (List.length l) + -1)))
    with (List.length l - 1)%nat by lia.
  induction l as [|x l IH]; [reflexivity|].
  destruct l as [|y l]; [reflexivity|].
  cbn [List.length removelast] in *.
  replace (S (S (List.length l)) - 1)%nat with (S (S (List.length l) - 1))
    by lia.
  cbn [firstn]. rewrite IH. reflexivity.
Qed.

Lemma length_removelast {A} (l : list A) :
  List.length (removelast l) = (List.length l - 1)%nat.
Proof.
  induction l as [|x l IH]; [reflexivity|].
  destruct l as [|y l]; [reflexivity|].
  cbn [removelast List.length] in *. rewrite IH. lia.
Qed.

End PyFacts.

(* ===================================================================== *)
(** ** Facts about the pattern *)
(* ===================================================================== *)

Module ReFacts.
Import PyStr Re PyFacts.

Lemma take_class_sound p n cs ds rest :
  take_class p n cs = Some (ds, rest) ->
  cs = (ds ++ rest)%list /\ List.length ds = n /\ forallb p ds = true.
Proof.
  revert cs ds rest. induction n as [|n IH]; intros cs ds rest H.
  - injection H as <- <-. auto.
  - cbn [take_class] in H. destruct cs as [|c r]; [discriminate|].
    destruct (p c) eqn:Hc; [|discriminate].
    destruct (take_class p n r) as [[ds' rest']|] eqn:Ht; [|discriminate].
    injection H as <- <-. apply IH in Ht as (-> & <- & Hp).
    cbn. rewrite Hc, Hp. auto.
Qed.

Lemma take_class_complete p ds rest :
  forallb p ds = true ->
  take_class p (List.length ds) (ds ++ rest) = Some (ds, rest).
Proof.
  induction ds as [|c ds IH]; intros H; [reflexivity|].
  cbn in H. apply Bool.andb_true_iff in H as [Hc Hp].
  cbn. rewrite Hc, (IH Hp). reflexivity.
Qed.

(** More characters of the class than there are before a character
    outside it cannot be taken. *)
Lemma take_class_short p n ds c rest :
  p c = false -> (List.length ds < n)%nat ->
  take_class p n (ds ++ c :: rest) = None.
Proof.
  revert n. induction ds as [|d ds IH]; intros n Hc Hn.
  - destruct n; [inversion Hn|]. cbn. rewrite Hc. reflexivity.
  - destruct n; [inversion Hn|]. cbn.
    destruct (p d); [|reflexivity].
    rewrite IH; [reflexivity|assumption|cbn in Hn; lia].
Qed.

Lemma dash_sound cs rest : dash cs = Some rest -> cs = "-"%char :: rest.
Proof.
  destruct cs as [|c r]; [discriminate|]. cbn.
  destruct (Ascii.eqb c "-") eqn:E; [|discriminate].
  apply Ascii.eqb_eq in E. intros [= <-]. subst. reflexivity.
Qed.

Lemma digits_dash_sound n cs ds rest :
  digits_dash n cs = Some (ds, rest) ->
  cs = (ds ++ "-"%char :: rest)%list /\ List.length ds = n
  /\ forallb is_digit ds = true.
Proof.
  unfold digits_dash.
  destruct (take_class is_digit n cs) as [[ds' r]|] eqn:Ht; [|discriminate].
  destruct (dash r) as [r'|] eqn:Hd; [|discriminate].
  intros [= <- <-]. apply take_class_sound in Ht as (-> & <- & Hp).
  apply dash_sound in Hd as ->. auto.
Qed.

Lemma digits_dash_complete ds rest :
  forallb is_digit ds = true ->
  digits_dash (List.length ds) (ds ++ "-"%char :: rest) = Some (ds, rest).
Proof.
  intros H. unfold digits_dash. rewrite (take_class_complete _ _ ("-"%char :: rest) H).
  reflexivity.
Qed.

Lemma digits_dash_short n ds rest :
  (List.length ds < n)%nat ->
  digits_dash n (ds ++ "-"%char :: rest) = None.
Proof.
  intros H. unfold digits_dash.
  rewrite take_class_short; [reflexivity|reflexivity|assumption].
Qed.

(** A match consumes [-ab-digits-] and leaves what follows. *)
Lemma match_here_sound cs g1 g2 rest :
  match_here cs = Some (g1, g2, rest) ->
  exists a b ds,
    cs = ("-"%char :: a :: b :: "-"%char :: ds ++ "-"%char :: rest)%list
    /\ g1 = str [a; b] /\ g2 = str ds
    /\ is_code_char a = true /\ is_code_char b = true
    /\ (2 <= List.length ds <= 4)%nat /\ forallb is_digit ds = true.
Proof.
  unfold match_here.
  destruct (dash cs) as [r1|] eqn:H1; [|discriminate].
  destruct (take_class is_code_char 2 r1) as [[c2 r2]|] eqn:H2;
    [|discriminate].
  destruct (dash r2) as [r3|] eqn:H3; [|discriminate].
  apply dash_sound in H1 as ->. apply dash_sound in H3 as ->.
  apply take_class_sound in H2 as (-> & Hl & Hp).
  destruct c2 as [|a [|b [|? ?]]]; try discriminate.
  cbn in Hp. rewrite Bool.andb_true_r in Hp.
  apply Bool.andb_true_iff in Hp as [Ha Hb].
  assert (Hd : forall n ds r4, (2 <= n <= 4)%nat ->
               digits_dash n r3 = Some (ds, r4) ->
               Some (str [a; b], str ds, r4) = Some (g1, g2, rest) ->
               exists a' b' ds',
                 ("-"%char :: ([a; b] ++ "-"%char :: r3))%list
                 = ("-"%char :: a' :: b' :: "-"%char :: ds'
                      ++ "-"%char :: rest)%list
                 /\ g1 = str [a'; b'] /\ g2 = str ds'
                 /\ is_code_char a' = true /\ is_code_char b' = true
                 /\ (2 <= List.length ds' <= 4)%nat
                 /\ forallb is_digit ds' = true).
  { intros n ds r4 Hn Hdd [= <- <- <-].
    apply digits_dash_sound in Hdd as (-> & <- & Hp).
    exists a, b, ds. repeat split; auto; lia. }
  unfold or_else.
  destruct (digits_dash 4 r3) as [[ds r4]|] eqn:E4.
  { intros H. eapply Hd; [|exact E4|exact H]. lia. }
  destruct (digits_dash 3 r3) as [[ds r4]|] eqn:E3.
  { intros H. eapply Hd; [|exact E3|exact H]. lia. }
  destruct (digits_dash 2 r3) as [[ds r4]|] eqn:E2; [|discriminate].
  intros H. eapply Hd; [|exact E2|exact H]. lia.
Qed.

(** Where [-ab-digits-] stands, the pattern matches, with these groups. *)
Lemma match_here_complete a b ds rest :
  is_code_char a = true -> is_code_char b = true ->
  (2 <= List.length ds <= 4)%nat -> forallb is_digit ds = true ->
  match_here ("-"%char :: a :: b :: "-"%char :: ds ++ "-"%char :: rest)%list
  = Some (str [a; b], str ds, rest).
Proof.
  intros Ha Hb Hn Hp. unfold match_here.
  cbn [dash take_class]. change (Ascii.eqb "-" "-") with true. cbv iota.
  rewrite Ha, Hb. cbv iota. cbn [dash].
  change (Ascii.eqb "-" "-") with true. cbv iota.
  pose proof (digits_dash_complete ds rest Hp) as Hc.
  assert (Hcases : (List.length ds = 2 \/ List.length ds = 3
                    \/ List.length ds = 4)%nat) by lia.
  unfold or_else.
  destruct Hcases as [E|[E|E]]; rewrite E in Hc.
  - rewrite (digits_dash_short 4), (digits_dash_short 3), Hc by lia.
    reflexivity.
  - rewrite (digits_dash_short 4), Hc by lia. reflexivity.
  - rewrite Hc. reflexivity.
Qed.

(** The first element of [findall] is a match at some position. *)
Lemma findall_aux_head cs g1 g2 l :
  findall_aux cs 0 = (g1, g2) :: l ->
  exists before here rest,
    cs = (before ++ here)%list /\ match_here here = Some (g1, g2, rest).
Proof.
  induction cs as [|c r IH]; [discriminate|].
  cbn [findall_aux].
  destruct (match_here (c :: r)) as [[[h1 h2] rest]|] eqn:Hm.
  - intros [= <- <- _]. exists [], (c :: r), rest. auto.
  - intros H. destruct (IH H) as (before & here & rest & -> & Hh).
    exists (c :: before), here, rest. auto.
Qed.

(** Where the pattern matches somewhere, [findall] is not empty. *)
Lemma findall_aux_nonempty before here m :
  match_here here = Some m ->
  findall_aux (before ++ here) 0 <> [].
Proof.
  intros Hm. induction before as [|c before IH].
  - cbn [app]. destruct here as [|c r]; [discriminate|].
    cbn [findall_aux]. rewrite Hm. destruct m as [[g1 g2] rest].
    discriminate.
  - cbn [app findall_aux].
    destruct (match_here (c :: before ++ here)) as [[[h1 h2] rest]|];
      [discriminate|exact IH].
Qed.

Lemma pattern_groups_intro a b ds :
  is_code_char a = true -> is_code_char b = true ->
  (2 <= List.length ds <= 4)%nat -> forallb is_digit ds = true ->
  pattern_groups (str [a; b]) (str ds).
Proof.
  intros Ha Hb Hn Hp. unfold pattern_groups. rewrite !chars_str.
  cbn. rewrite Ha, Hb. auto.
Qed.

Lemma pattern_groups_elim code number :
  pattern_groups code number ->
  exists a b ds,
    code = str [a; b] /\ number = str ds
    /\ is_code_char a = true /\ is_code_char b = true
    /\ (2 <= List.length ds <= 4)%nat /\ forallb is_digit ds = true.
Proof.
  intros (Hl & Hc & Hn & Hd).
  rewrite <- (str_chars code), <- (str_chars number).
  destruct (chars code) as [|a [|b [|? ?]]]; try discriminate.
  cbn in Hc. rewrite Bool.andb_true_r in Hc.
  apply Bool.andb_true_iff in Hc as [Ha Hb].
  exists a, b, (chars number). repeat split; auto; lia.
Qed.

(** What [findall] finds first has the shape of the pattern and stands in
    the text. *)
Lemma findall_head_sound s g1 g2 l :
  findall s = (g1, g2) :: l ->
  pattern_groups g1 g2 /\ occurs_in g1 g2 s.
Proof.
  intros H. apply findall_aux_head in H as (before & here & rest & Hs & Hm).
  apply match_here_sound in Hm
    as (a & b & ds & -> & -> & -> & Ha & Hb & Hn & Hp).
  split; [apply pattern_groups_intro; assumption|].
  exists (str before), (str rest).
  rewrite <- (str_chars s), Hs.
  rewrite str_app. cbn [str string_of_list_ascii].
  f_equal. f_equal. f_equal. f_equal.
  change (string_of_list_ascii (ds ++ "-"%char :: rest))
    with (str (ds ++ "-"%char :: rest)).
  rewrite str_app. reflexivity.
Qed.

(** Where a code and a number of the pattern's shape stand in the text,
    [findall] finds something. *)
Lemma findall_complete s code number :
  pattern_groups code number -> occurs_in code number s ->
  findall s <> [].
Proof.
  intros Hg (before & after & ->).
  apply pattern_groups_elim in Hg
    as (a & b & ds & -> & -> & Ha & Hb & Hn & Hp).
  unfold findall. rewrite chars_app.
  apply findall_aux_nonempty
    with (m := (str [a; b], str ds, chars after)).
  change (chars ("-" ++ str [a; b] ++ "-" ++ str ds ++ "-" ++ after))
    with ("-"%char :: a :: b :: "-"%char
            :: chars (str ds ++ "-" ++ after))%list.
  rewrite chars_app, chars_str.
  change (chars ("-" ++ after)) with ("-"%char :: chars after).
  apply match_here_complete; assumption.
Qed.

End ReFacts.

(* ===================================================================== *)
(** ** The first match *)
(* ===================================================================== *)

Module ReFirst.
Import PyStr Re PyFacts ReFacts.

Lemma length_chars (s : string) : List.length (chars s) = String.length s.
Proof. induction s as [|c s IH]; [reflexivity|]. cbn. f_equal. exact IH. Qed.

(** A match at a position, read on the characters from that position. *)
Lemma matches_at_iff s pos code number :
  matches_at s pos code number
  <-> exists rest,
        match_here (skipn pos (chars s)) = Some (code, number, rest).
Proof.
  split.
  - intros (before & after & -> & Hl & Hg).
    apply pattern_groups_elim in Hg
      as (a & b & ds & -> & -> & Ha & Hb & Hn & Hp).
    exists (chars after). rewrite chars_app, <- Hl, <- length_chars.
    rewrite skipn_app, skipn_all, Nat.sub_diag. cbn [skipn app].
    change (chars ("-" ++ str [a; b] ++ "-" ++ str ds ++ "-" ++ after))
      with ("-"%char :: a :: b :: "-"%char
              :: chars (str ds ++ "-" ++ after))%list.
    rewrite chars_app, chars_str.
    change (chars ("-" ++ after)) with ("-"%char :: chars after).
    apply match_here_complete; assumption.
  - intros (rest & Hm).
    apply match_here_sound in Hm
      as (a & b & ds & Hs & -> & -> & Ha & Hb & Hn & Hp).
    assert (Hpos : (pos <= List.length (chars s))%nat).
    { destruct (Nat.le_gt_cases pos (List.length (chars s))) as [H|H];
        [exact H|].
      rewrite skipn_all2 in Hs by lia. discriminate. }
    exists (str (firstn pos (chars s))), (str rest). split; [|split].
    + rewrite <- (str_chars s) at 1.
      rewrite <- (firstn_skipn pos (chars s)) at 1. rewrite Hs.
      rewrite str_app. cbn [str string_of_list_ascii].
      f_equal. f_equal. f_equal. f_equal.
      change (string_of_list_ascii (ds ++ "-"%char :: rest))
        with (str (ds ++ "-"%char :: rest)).
      rewrite str_app. reflexivity.
    + rewrite <- length_chars, chars_str. apply firstn_length_le. exact Hpos.
    + apply pattern_groups_intro; assumption.
Qed.

(** What [findall] finds first is a match at a position before which
    nothing matches. *)
Lemma findall_aux_first cs g1 g2 l :
  findall_aux cs 0 = (g1, g2) :: l ->
  exists pos rest,
    match_here (skipn pos cs) = Some (g1, g2, rest)
    /\ forall pos', (pos' < pos)%nat -> match_here (skipn pos' cs) = None.
Proof.
  induction cs as [|c r IH]; [discriminate|].
  cbn [findall_aux].
  destruct (match_here (c :: r)) as [[[h1 h2] rest]|] eqn:Hm.
  - intros [= <- <- _]. exists 0%nat, rest. split; [exact Hm|].
    intros pos' H. inversion H.
  - intros H. destruct (IH H) as (pos & rest & Hp & Hmin).
    exists (S pos), rest. split; [exact Hp|].
    intros [|pos'] Hlt; [exact Hm|]. cbn [skipn]. apply Hmin. lia.
Qed.

(** Where [findall] finds nothing, nothing matches at any position. *)
Lemma findall_aux_none cs :
  findall_aux cs 0 = [] ->
  forall pos, match_here (skipn pos cs) = None.
Proof.
  induction cs as [|c r IH]; intros H pos.
  - destruct pos; reflexivity.
  - cbn [findall_aux] in H.
    destruct (match_here (c :: r)) as [[[h1 h2] rest]|] eqn:Hm;
      [discriminate|].
    destruct pos as [|pos]; [exact Hm|]. cbn [skipn]. apply IH. exact H.
Qed.

(** No match starts before [pos], by evaluation. *)
Definition no_match_before (cs : list ascii) (pos : nat) : bool :=
  forallb
    (fun p =>
       match match_here (skipn p cs) with
       | None => true
       | Some _ => false
       end)
    (seq 0 pos).

Lemma no_match_before_sound s pos :
  no_match_before (chars s) pos = true ->
  forall pos' code number,
    (pos' < pos)%nat -> ~ matches_at s pos' code number.
Proof.
  intros H pos' code number Hlt Hm.
  apply matches_at_iff in Hm as (rest & Hm).
  unfold no_match_before in H.
  pose proof (proj1 (forallb_forall _ _) H pos') as Hp.
  cbv beta in Hp. rewrite Hm in Hp.
  assert (Hin : In pos' (seq 0 pos)) by (apply in_seq; lia).
  specialize (Hp Hin). discriminate.
Qed.

End ReFirst.

(* ===================================================================== *)
(** ** Facts about the effects *)
(* ===================================================================== *)

Section EffectFacts.
Context {C : Collaborators}.

(** The world after some more lines were printed. *)
Definition emit (out : list string) (w : World) : World :=
  {| net := net w; stdout := (stdout w ++ out)%list;
     debug_log := debug_log w; calls := calls w |}.

(** [m] gives [r] and prints [out], whatever the world it starts in, and
    touches nothing else. *)
Definition runs_as {A} (m : Py A) (r : result A) (out : list string)
    : Prop :=
  forall w, m w = (r, emit out w).

Lemma emit_nil w : emit [] w = w.
Proof. destruct w. unfold emit. cbn. rewrite app_nil_r. reflexivity. Qed.

Lemma emit_emit a b w : emit b (emit a w) = emit (a ++ b) w.
Proof. unfold emit. cbn. rewrite app_assoc. reflexivity. Qed.

Lemma runs_lift {A} (r : result A) : runs_as (lift r) r [].
Proof. intros w. unfold lift. rewrite emit_nil. reflexivity. Qed.

Lemma runs_ret {A} (a : A) : runs_as (ret a) (Ok a) [].
Proof. intros w. unfold ret. rewrite emit_nil. reflexivity. Qed.

Lemma runs_raise {A} (e : exn) : runs_as (@raise _ A e) (Raise e) [].
Proof. intros w. unfold raise. rewrite emit_nil. reflexivity. Qed.

Lemma runs_print line : runs_as (print line) (Ok tt) [line].
Proof. intros w. reflexivity. Qed.

Lemma runs_bind {A B} (m : Py A) (k : A -> Py B) a o1 r o2 :
  runs_as m (Ok a) o1 -> runs_as (k a) r o2 ->
  runs_as (bind m k) r (o1 ++ o2).
Proof.
  intros Hm Hk w. unfold bind. rewrite Hm, Hk, emit_emit. reflexivity.
Qed.

Lemma runs_bind_raise {A B} (m : Py A) (k : A -> Py B) e o :
  runs_as m (Raise e) o -> runs_as (bind m k) (Raise e) o.
Proof. intros Hm w. unfold bind. rewrite Hm. reflexivity. Qed.

Lemma runs_try_ok {A} (body : Py A) caught handler a o :
  runs_as body (Ok a) o -> runs_as (try_except body caught handler) (Ok a) o.
Proof. intros Hb w. unfold try_except. rewrite Hb. reflexivity. Qed.

Lemma runs_try_pass {A} (body : Py A) caught handler e o :
  runs_as body (Raise e) o -> caught e = false ->
  runs_as (try_except body caught handler) (Raise e) o.
Proof.
  intros Hb Hc w. unfold try_except. rewrite Hb, Hc. reflexivity.
Qed.

End EffectFacts.


(* ===================================================================== *)
(** ** Facts about the extraction *)
(* ===================================================================== *)

(** [stops_fmt_of] always returns: the [ValueError] of [int] is caught and
    nothing else can be raised. *)
Lemma stops_fmt_of_eq (stops : string) :
  stops_fmt_of stops
  = Ok (if String.eqb stops "Nonstop" then StopsInt 0
        else match PyStr.int (leading_token stops) with
             | Ok n => StopsInt n
             | Raise _ => StopsStr "Unknown"
             end).
Proof.
  unfold stops_fmt_of.
  destruct (String.eqb stops "Nonstop"); [reflexivity|].
  rewrite PyFacts.split_space_1_head. cbn [rbind].
  destruct (PyStr.int (leading_token stops)) as [n|e] eqn:E; [reflexivity|].
  apply PyFacts.int_raises_ValueError in E. subst e. reflexivity.
Qed.

(** The two time texts: both, or two empty strings. *)
Lemma times_eq {A} (l : list A) (f : A -> string) :
  rtry (d <~ PyStr.getitem l 0 ;;
        a <~ PyStr.getitem l 1 ;;
        Ok (f d, f a))
       is_IndexError (fun _ => Ok ("", ""))
  = Ok (match l with
        | d :: a :: _ => (f d, f a)
        | _ => ("", "")
        end).
Proof. destruct l as [|d [|a l]]; reflexivity. Qed.

Lemma Forall2_in_left {A B} (R : A -> B -> Prop) l l' x :
  Forall2 R l l' -> In x l -> exists y, In y l' /\ R x y.
Proof.
  induction 1 as [|a b l l' Hab _ IH]; intros Hin; [contradiction|].
  destruct Hin as [->|Hin].
  - exists b. split; [left; reflexivity|exact Hab].
  - destruct (IH Hin) as (y & Hy & Hr). exists y. split; [right|]; auto.
Qed.

Section ExtractionFacts.
Context {C : Collaborators}.

Definition url_attribute : string := "data-travelimpactmodelwebsiteurl".

(** Why the airline code and flight number of an item cannot be decoded,
    and what is raised then. *)
Inductive decode_failure (item : LexborNode) : exn -> Prop :=
| no_url_node :
    css_first item ".NZRfve" = None ->
    decode_failure item AttributeError
| no_url_attribute n :
    css_first item ".NZRfve" = Some n ->
    dict_get (attributes n) url_attribute = None ->
    decode_failure item (KeyError url_attribute)
| no_url_value n :
    css_first item ".NZRfve" = Some n ->
    dict_get (attributes n) url_attribute = Some None ->
    decode_failure item TypeError
| no_url_match n url :
    css_first item ".NZRfve" = Some n ->
    dict_get (attributes n) url_attribute = Some (Some url) ->
    Re.findall url = [] ->
    decode_failure item IndexError.

(** The item carries a URL in which the pattern first finds [d]. *)
Definition decodes_to (item : LexborNode) (d : string * string) : Prop :=
  exists n url l,
    css_first item ".NZRfve" = Some n
    /\ dict_get (attributes n) url_attribute = Some (Some url)
    /\ Re.findall url = d :: l.

(** The price an item should get: ["0"] without a price node or with an
    empty price text, the text without its commas otherwise. *)
Definition expected_price (item : LexborNode) : string :=
  match css_first item ".YMlIz.FpEdX" with
  | None => "0"
  | Some n =>
      if String.eqb (node_text n false) "" then "0"
      else remove_commas (node_text n false)
  end.

(** [f] is the entry of [item] in a group that is, or is not, the best. *)
Definition produced_from (best : bool) (item : LexborNode) (f : Flight)
    : Prop :=
  is_best f = best
  /\ price f = expected_price item
  /\ decodes_to item (airline_code f, flight_number f).

(** The items the loops visit, from group index [i] on, in order. *)
Fixpoint visited (allow : bool) (i : nat) (groups : list LexborNode)
    : list LexborNode :=
  match groups with
  | [] => []
  | fl :: rest =>
      (retained_items allow i fl ++ visited allow (S i) rest)%list
  end.

(** [per_group] holds, group by group, the entries of the retained
    items. *)
Fixpoint groups_rel (allow : bool) (i : nat) (groups : list LexborNode)
    (per_group : list (list Flight)) : Prop :=
  match groups, per_group with
  | [], [] => True
  | fl :: rest, fs :: per_group' =>
      Forall2 (produced_from (Nat.eqb i 0)) (retained_items allow i fl) fs
      /\ groups_rel allow (S i) rest per_group'
  | _, _ => False
  end.

Lemma decode_failure_not_runtime item e :
  decode_failure item e -> is_RuntimeError e = false.
Proof. destruct 1; reflexivity. Qed.

Lemma decode_failure_excludes item e d :
  decode_failure item e -> decodes_to item d -> False.
Proof.
  intros Hf (n & url & l & Hn & Ha & Hu).
  destruct Hf; congruence.
Qed.

(** The decoder, alone. *)
Lemma extract_runs (s : string) :
  exists r out,
    runs_as (extract_airline_code_and_flight_number (Some s)) r out
    /\ match Re.findall s with
       | [] => r = Raise IndexError
       | d :: _ => r = Ok d /\ out = []
       end.
Proof.
  unfold extract_airline_code_and_flight_number.
  destruct (Re.findall s) as [|d l] eqn:E.
  - eexists _, _. split; [|reflexivity].
    eapply runs_bind; [apply runs_print|].
    apply runs_bind_raise. apply runs_lift.
  - exists (Ok d), []. split; [|auto].
    apply (runs_bind _ _ tt [] _ []); [apply runs_ret|].
    apply (runs_bind _ _ d [] _ []); [apply runs_lift|].
    destruct d. apply runs_ret.
Qed.

(** The [try] block around the decoder: its handler never runs. *)
Lemma decode_runs (item : LexborNode) :
  exists r out,
    runs_as
      (try_except
         (attrs <- lift (attributes_of (css_first item ".NZRfve")) ;;
          url <- lift (dict_getitem attrs
                         "data-travelimpactmodelwebsiteurl") ;;
          extract_airline_code_and_flight_number url)
         is_ValueError
         (fun _ =>
            raise (FlightParsingError
                     "Can't parse airline code or flight number")))
      r out
    /\ match r with
       | Ok d => decodes_to item d
       | Raise e => decode_failure item e
       end.
Proof.
  destruct (css_first item ".NZRfve") as [n|] eqn:Hn.
  2:{ exists (Raise AttributeError), []. split; [|constructor; assumption].
      apply runs_try_pass; [|reflexivity].
      apply runs_bind_raise. apply runs_lift. }
  destruct (dict_get (attributes n) url_attribute) as [[url|]|] eqn:Ha.
  - destruct (extract_runs url) as (r & out & Hr & Hf).
    destruct (Re.findall url) as [|d l] eqn:E.
    + subst r. exists (Raise IndexError), out.
      split; [|econstructor; eassumption].
      apply runs_try_pass; [|reflexivity].
      apply (runs_bind _ _ (attributes n) [] _ out); [apply runs_lift|].
      apply (runs_bind _ _ (Some url) [] _ out); [|exact Hr].
      cbn [attributes_of]. unfold dict_getitem.
      change "data-travelimpactmodelwebsiteurl" with url_attribute.
      rewrite Ha. apply runs_lift.
    + destruct Hf as [-> ->]. exists (Ok d), [].
      split; [|exists n, url, l; auto].
      apply runs_try_ok.
      apply (runs_bind _ _ (attributes n) [] _ []); [apply runs_lift|].
      apply (runs_bind _ _ (Some url) [] _ []); [|exact Hr].
      unfold dict_getitem.
      change "data-travelimpactmodelwebsiteurl" with url_attribute.
      rewrite Ha. apply runs_lift.
  - exists (Raise TypeError), [].
    split; [|econstructor 3; eassumption].
    apply runs_try_pass; [|reflexivity].
    apply (runs_bind _ _ (attributes n) [] _ []); [apply runs_lift|].
    apply (runs_bind _ _ None [] _ []); [|apply runs_raise].
    unfold dict_getitem.
    change "data-travelimpactmodelwebsiteurl" with url_attribute.
    rewrite Ha. apply runs_lift.
  - exists (Raise (KeyError url_attribute)), [].
    split; [|econstructor 2; eassumption].
    apply runs_try_pass; [|reflexivity].
    apply (runs_bind _ _ (attributes n) [] _ []); [apply runs_lift|].
    apply runs_bind_raise. unfold dict_getitem.
    change "data-travelimpactmodelwebsiteurl" with url_attribute.
    rewrite Ha. apply runs_lift.
Qed.

(** One pass of the inner loop: an entry is appended, or the decoding of
    the item fails. *)
Lemma parse_item_runs best item fl :
  exists r out,
    runs_as (parse_item best item fl) r out
    /\ match r with
       | Ok fl' =>
           exists f, fl' = (fl ++ [f])%list /\ produced_from best item f
       | Raise e => decode_failure item e
       end.
Proof.
  destruct (decode_runs item) as (rd & out & Hd & Hrd).
  unfold parse_item. rewrite times_eq, stops_fmt_of_eq.
  destruct rd as [d|e].
  - eexists (Ok _), out. split.
    + eapply (runs_bind _ _ _ [] _ out); [apply runs_lift|].
      eapply (runs_bind _ _ _ [] _ out); [apply runs_lift|].
      replace out with (out ++ [])%list by apply app_nil_r.
      eapply runs_bind; [exact Hd|]. apply runs_ret.
    + eexists. split; [reflexivity|].
      unfold produced_from. cbn [is_best price airline_code flight_number].
      split; [reflexivity|]. split.
      * rewrite PyFacts.replace_comma. unfold expected_price, str_or.
        destruct (css_first item ".YMlIz.FpEdX") as [n|];
          cbn [safe text_of]; [|reflexivity].
        destruct (String.eqb (node_text n false) ""); reflexivity.
      * destruct d. exact Hrd.
  - exists (Raise e), out. split; [|exact Hrd].
    eapply (runs_bind _ _ _ [] _ out); [apply runs_lift|].
    eapply (runs_bind _ _ _ [] _ out); [apply runs_lift|].
    apply runs_bind_raise. exact Hd.
Qed.

(** The inner loop: an entry per item, in order, or the failure of one of
    the items. *)
Lemma for_items_runs best items fl :
  exists r out,
    runs_as (for_items best items fl) r out
    /\ match r with
       | Ok fl' =>
           exists fs, fl' = (fl ++ fs)%list
                      /\ Forall2 (produced_from best) items fs
       | Raise e => exists item, In item items /\ decode_failure item e
       end.
Proof.
  revert fl. induction items as [|item items IH]; intros fl.
  - exists (Ok fl), []. split; [apply runs_ret|].
    exists []. rewrite app_nil_r. auto.
  - cbn [for_items].
    destruct (parse_item_runs best item fl) as ([fl1|e] & o1 & H1 & P1).
    + destruct P1 as (f & -> & Pf).
      destruct (IH (fl ++ [f])%list) as (r & o2 & H2 & P2).
      exists r, (o1 ++ o2)%list. split; [eapply runs_bind; eassumption|].
      destruct r as [fl2|e].
      * destruct P2 as (fs & -> & Pfs). exists (f :: fs).
        rewrite <- app_assoc. auto.
      * destruct P2 as (it & Hin & Hf). exists it. split; [right|]; auto.
    + exists (Raise e), o1. split; [apply runs_bind_raise; exact H1|].
      exists item. split; [left|]; auto.
Qed.

(** The outer loop. *)
Lemma for_groups_runs allow i groups fl :
  exists r out,
    runs_as (for_groups allow i groups fl) r out
    /\ match r with
       | Ok fl' =>
           exists per_group,
             fl' = (fl ++ List.concat per_group)%list
             /\ groups_rel allow i groups per_group
       | Raise e =>
           exists item,
             In item (visited allow i groups) /\ decode_failure item e
       end.
Proof.
  revert i fl. induction groups as [|g groups IH]; intros i fl.
  - exists (Ok fl), []. split; [apply runs_ret|].
    exists []. cbn. rewrite app_nil_r. auto.
  - cbn [for_groups visited].
    destruct (for_items_runs (Nat.eqb i 0) (retained_items allow i g) fl)
      as ([fl1|e] & o1 & H1 & P1).
    + destruct P1 as (fs & -> & Pfs).
      destruct (IH (S i) (fl ++ fs)%list) as (r & o2 & H2 & P2).
      exists r, (o1 ++ o2)%list. split; [eapply runs_bind; eassumption|].
      destruct r as [fl2|e].
      * destruct P2 as (pg & -> & Ppg). exists (fs :: pg).
        cbn [List.concat groups_rel]. rewrite <- app_assoc. auto.
      * destruct P2 as (it & Hin & Hf). exists it.
        split; [apply in_or_app; right|]; auto.
    + exists (Raise e), o1. split; [apply runs_bind_raise; exact H1|].
      destruct P1 as (it & Hin & Hf). exists it.
      split; [apply in_or_app; left|]; auto.
Qed.

(** The slice of the loop, read on lists. *)
Lemma retained_items_eq allow i fl :
  retained_items allow i fl
  = if (allow || Nat.eqb i 0)%bool then css fl "ul.Rk10dc li"
    else removelast (css fl "ul.Rk10dc li").
Proof.
  unfold retained_items.
  destruct (allow || Nat.eqb i 0)%bool; [reflexivity|].
  apply PyFacts.slice_to_minus_1.
Qed.

(** How many items of a group are retained. *)
Lemma length_retained_items allow i fl :
  List.length (retained_items allow i fl)
  = if (allow || Nat.eqb i 0)%bool
    then List.length (css fl "ul.Rk10dc li")
    else (List.length (css fl "ul.Rk10dc li") - 1)%nat.
Proof.
  unfold retained_items.
  destruct (allow || Nat.eqb i 0)%bool; [reflexivity|].
  rewrite PyFacts.slice_to_minus_1. apply PyFacts.length_removelast.
Qed.

Lemma groups_rel_length allow i groups per_group :
  groups_rel allow i groups per_group ->
  List.length per_group = List.length groups.
Proof.
  revert i per_group. induction groups as [|g groups IH];
    intros i [|fs pg] H; cbn in H; try contradiction; [reflexivity|].
  destruct H as [_ H]. cbn. f_equal. eapply IH. exact H.
Qed.

Lemma groups_rel_nth allow i groups per_group j fl :
  groups_rel allow i groups per_group ->
  nth_error groups j = Some fl ->
  exists fs,
    nth_error per_group j = Some fs
    /\ Forall2 (produced_from (Nat.eqb (i + j) 0))
         (retained_items allow (i + j) fl) fs.
Proof.
  revert i per_group j. induction groups as [|g groups IH];
    intros i [|fs pg] j H Hj; cbn in H; try contradiction.
  - destruct j; discriminate.
  - destruct H as [Hg H]. destruct j as [|j].
    + injection Hj as <-. exists fs. rewrite Nat.add_0_r. auto.
    + cbn in Hj. destruct (IH (S i) pg j H Hj) as (fs' & Hn & Hf).
      exists fs'. replace (i + S j)%nat with (S i + j)%nat by lia. auto.
Qed.

Lemma groups_rel_visited allow i groups per_group :
  groups_rel allow i groups per_group ->
  Forall2 (fun item f => exists best, produced_from best item f)
    (visited allow i groups) (List.concat per_group).
Proof.
  revert i per_group. induction groups as [|g groups IH];
    intros i [|fs pg] H; cbn in H; try contradiction; [constructor|].
  destruct H as [Hg H]. cbn [visited List.concat].
  apply Forall2_app; [|eapply IH; exact H].
  eapply Forall2_impl; [|exact Hg]. intros item f Hp. eexists. exact Hp.
Qed.

(** The whole of [parse_response]: the two checks, then the loops. *)
Lemma parse_response_runs r allow :
  exists res out,
    runs_as (parse_response r allow) res out
    /\ let parser := LexborHTMLParser (text r) in
       match css_first parser date_too_far_selector,
             css_first parser required_selector with
       | Some _, _ =>
           res = Raise (FlightDateTooFarError
                          "Requested flight date is too far in the future")
           /\ out = []
       | None, None =>
           res = Raise (FlightParsingError
                          "Required qJTHM element not found in response")
           /\ out = []
       | None, Some _ =>
           match res with
           | Ok result =>
               current_price result
               = text_of (safe (css_first parser "span.gOatQ")) false
               /\ exists per_group,
                    flights result = List.concat per_group
                    /\ groups_rel allow 0 (css parser groups_selector)
                         per_group
           | Raise e =>
               exists item,
                 In item (visited allow 0 (css parser groups_selector))
                 /\ decode_failure item e
           end
       end.
Proof.
  unfold parse_response. cbv zeta.
  destruct (css_first (LexborHTMLParser (text r)) date_too_far_selector).
  { eexists _, []. split; [apply runs_raise|auto]. }
  destruct (css_first (LexborHTMLParser (text r)) required_selector).
  2:{ eexists _, []. split; [apply runs_raise|auto]. }
  destruct (for_groups_runs allow 0
              (css (LexborHTMLParser (text r)) groups_selector) [])
    as ([fl|e] & out & Hr & P).
  - eexists (Ok _), out. split.
    + replace out with (out ++ [])%list by apply app_nil_r.
      eapply runs_bind; [exact Hr|]. apply runs_ret.
    + cbn [current_price flights]. split; [reflexivity|].
      destruct P as (pg & -> & Hpg). exists pg. auto.
  - exists (Raise e), out. split; [|exact P].
    apply runs_bind_raise. exact Hr.
Qed.

(** [parse_response] leaves the requests made so far as they are. *)
Lemma parse_response_calls r allow w :
  calls (snd (parse_response r allow w)) = calls w.
Proof.
  destruct (parse_response_runs r allow) as (res & out & H & _).
  rewrite H. reflexivity.
Qed.

Lemma no_comma_expected_price item : no_comma (expected_price item).
Proof.
  unfold expected_price.
  assert (H0 : no_comma "0").
  { unfold no_comma. cbn. intros [H|[]]. discriminate. }
  destruct (css_first item ".YMlIz.FpEdX") as [n|]; [|exact H0].
  destruct (String.eqb (node_text n false) ""); [exact H0|].
  apply PyFacts.no_comma_remove_commas.
Qed.

(** A [Result] comes out only through both checks and both loops. *)
Lemma parse_response_ok_inv r allow w res w' :
  parse_response r allow w = (Ok res, w') ->
  exists per_group,
    flights res = List.concat per_group
    /\ groups_rel allow 0
         (css (LexborHTMLParser (text r)) groups_selector) per_group.
Proof.
  intros H.
  destruct (parse_response_runs r allow) as (res0 & out & Hr & P).
  rewrite Hr in H. injection H as -> _. cbv zeta in P.
  destruct (css_first (LexborHTMLParser (text r)) date_too_far_selector);
    [destruct P; discriminate|].
  destruct (css_first (LexborHTMLParser (text r)) required_selector);
    [|destruct P; discriminate].
  apply P.
Qed.

Lemma css_first_None n sel : css n sel = [] <-> css_first n sel = None.
Proof.
  rewrite css_first_css. destruct (css n sel); split; intros H;
    try reflexivity; discriminate.
Qed.

(** C6.  A document in which the date-too-far banner is found makes
    [parse_response] raise [FlightDateTooFarError], whatever else the page
    holds and whether or not the last items are kept: the banner is looked
    for before the required element and before any flight group, and
    nothing is printed. *)
Theorem date_too_far_takes_precedence r allow w :
  css (LexborHTMLParser (text r)) date_too_far_selector <> [] ->
  parse_response r allow w
  = (Raise (FlightDateTooFarError
              "Requested flight date is too far in the future"), w).
Proof.
  intros H. unfold parse_response. cbv zeta.
  destruct (css_first (LexborHTMLParser (text r)) date_too_far_selector)
    eqn:E; [reflexivity|].
  apply css_first_None in E. contradiction.
Qed.

(** C5.  A document in which no [div[jsname="qJTHM"]] is found makes
    [parse_response] raise [FlightParsingError] before any flight group is
    looked at, whatever flight groups the page holds; no [Result] comes
    out. *)
Theorem missing_container_is_parsing_error r allow w :
  css (LexborHTMLParser (text r)) required_selector = [] ->
  parse_response r allow w
  = (Raise (FlightParsingError
              "Required qJTHM element not found in response"), w).
Proof.
  intros H. apply css_first_None in H.
  unfold parse_response. cbv zeta.
  rewrite (css_narrow _ H), H. reflexivity.
Qed.

(** C4.  When [parse_response] returns a [Result], its flights are the
    entries of the groups, group after group.  The entries of a group are,
    one for one and in order, those of its items: of all N of them when
    the group is the first one or when the last items are kept, and of all
    but the last one otherwise, which makes N - 1 entries (none for an
    empty group).  Each entry has the price and the decoded airline code
    and flight number of its item, and is marked best exactly in the first
    group. *)
Theorem group_entry_counts r allow w res w' :
  parse_response r allow w = (Ok res, w') ->
  let groups := css (LexborHTMLParser (text r)) groups_selector in
  exists per_group : list (list Flight),
    flights res = List.concat per_group
    /\ List.length per_group = List.length groups
    /\ forall i fl,
         nth_error groups i = Some fl ->
         exists fs,
           nth_error per_group i = Some fs
           /\ Forall2 (produced_from (Nat.eqb i 0))
                (if (allow || Nat.eqb i 0)%bool
                 then css fl "ul.Rk10dc li"
                 else removelast (css fl "ul.Rk10dc li"))
                fs
           /\ List.length fs
              = let N := List.length (css fl "ul.Rk10dc li") in
                if Nat.eqb i 0 then N
                else if allow then N else (N - 1)%nat.
Proof.
  intros H groups.
  apply parse_response_ok_inv in H as (pg & Hf & Hg). fold groups in Hg.
  exists pg. split; [exact Hf|].
  split; [eapply groups_rel_length; exact Hg|].
  intros i fl Hi.
  destruct (groups_rel_nth _ _ _ _ _ _ Hg Hi) as (fs & Hn & Hp).
  cbn [Nat.add] in Hp. exists fs. split; [exact Hn|]. split.
  - rewrite <- retained_items_eq. exact Hp.
  - rewrite <- (Forall2_length Hp), length_retained_items. cbv zeta.
    destruct (Nat.eqb i 0), allow; reflexivity.
Qed.

(** C8.  When [parse_response] returns a [Result], its flights are, in
    order, the entries of the retained items; the price of each entry is
    ["0"] if the item has no price node or an empty price text, and the
    price text with every comma removed otherwise; so no price holds a
    comma. *)
Theorem price_has_no_comma r allow w res w' :
  parse_response r allow w = (Ok res, w') ->
  Forall2 (fun item f => price f = expected_price item)
    (visited allow 0 (css (LexborHTMLParser (text r)) groups_selector))
    (flights res)
  /\ Forall (fun f => no_comma (price f)) (flights res).
Proof.
  intros H. apply parse_response_ok_inv in H as (pg & -> & Hg).
  apply groups_rel_visited in Hg.
  assert (HF : Forall2 (fun item f => price f = expected_price item)
                 (visited allow 0
                    (css (LexborHTMLParser (text r)) groups_selector))
                 (List.concat pg)).
  { eapply Forall2_impl; [|exact Hg].
    intros item f (best & _ & Hp & _). exact Hp. }
  split; [exact HF|]. clear Hg.
  induction HF as [|item f its fs Hp _ IH]; [constructor|].
  constructor; [|exact IH].
  rewrite Hp. apply no_comma_expected_price.
Qed.

(** C2.  Past the two checks, an item that is visited and whose airline
    code cannot be decoded makes [parse_response] raise, and no [Result]
    comes out; but what is raised is the [AttributeError], [KeyError],
    [TypeError] or [IndexError] of the failed step, never
    [FlightParsingError]: the handler waits for a [ValueError], which no
    step raises. *)
Theorem decode_failure_is_not_parsing_error r allow w item e0 :
  css_first (LexborHTMLParser (text r)) date_too_far_selector = None ->
  css_first (LexborHTMLParser (text r)) required_selector <> None ->
  In item (visited allow 0 (css (LexborHTMLParser (text r)) groups_selector)) ->
  decode_failure item e0 ->
  exists e w',
    parse_response r allow w = (Raise e, w')
    /\ (e = AttributeError \/ e = KeyError url_attribute
        \/ e = TypeError \/ e = IndexError)
    /\ is_RuntimeError e = false
    /\ forall msg, e <> FlightParsingError msg.
Proof.
  intros Hd Hr Hin Hf.
  destruct (parse_response_runs r allow) as (res & out & H & P).
  cbv zeta in P. rewrite Hd in P.
  destruct (css_first (LexborHTMLParser (text r)) required_selector);
    [|contradiction].
  destruct res as [result|e].
  - exfalso. destruct P as (_ & pg & _ & Hg).
    apply groups_rel_visited in Hg.
    destruct (Forall2_in_left _ _ _ _ Hg Hin) as (f & _ & best & _ & _ & Hdec).
    eapply decode_failure_excludes; eassumption.
  - exists e, (emit out w). split; [apply H|].
    destruct P as (it & _ & Hfe).
    split; [destruct Hfe; auto|].
    split; [eapply decode_failure_not_runtime; exact Hfe|].
    intros msg ->. inversion Hfe.
Qed.

(** C3.  The decoder returns the groups of the first match of the pattern
    [-CODE-NUMBER-], where the code is exactly two characters, each an
    upper-case letter or a digit, and the number is two to four digits:
    the pattern matches at some position with these groups and at no
    position before it; and the decoder raises exactly when the pattern
    matches nowhere.  So a text in which [-UA-1234-] stands, with no match
    starting before it, gives [("UA", "1234")]. *)
Theorem decoder_returns_first_match (w : World) :
  (forall s,
     match fst (extract_airline_code_and_flight_number (Some s) w) with
     | Ok (code, number) =>
         exists pos,
           matches_at s pos code number
           /\ forall pos' code' number',
                (pos' < pos)%nat -> ~ matches_at s pos' code' number'
     | Raise _ =>
         forall pos code number, ~ matches_at s pos code number
     end)
  /\ (forall before after,
        (forall pos' code' number',
           (pos' < String.length before)%nat ->
           ~ matches_at (before ++ "-UA-1234-" ++ after) pos' code' number') ->
        fst (extract_airline_code_and_flight_number
               (Some (before ++ "-UA-1234-" ++ after)) w)
        = Ok ("UA", "1234")).
Proof.
  assert (Hgen : forall s,
            match fst (extract_airline_code_and_flight_number (Some s) w) with
            | Ok (code, number) =>
                exists pos,
                  matches_at s pos code number
                  /\ forall pos' code' number',
                       (pos' < pos)%nat -> ~ matches_at s pos' code' number'
            | Raise _ =>
                forall pos code number, ~ matches_at s pos code number
            end).
  { intros s. destruct (extract_runs s) as (r & out & H & P).
    rewrite H. cbn [fst].
    destruct (Re.findall s) as [|[g1 g2] l] eqn:E.
    - subst r. intros pos code number Hm.
      apply ReFirst.matches_at_iff in Hm as (rest & Hm).
      rewrite (ReFirst.findall_aux_none _ E pos) in Hm. discriminate.
    - destruct P as [-> _].
      apply ReFirst.findall_aux_first in E as (pos & rest & Hp & Hmin).
      exists pos. split.
      + apply ReFirst.matches_at_iff. exists rest. exact Hp.
      + intros pos' code' number' Hlt Hm.
        apply ReFirst.matches_at_iff in Hm as (rest' & Hm).
        rewrite (Hmin pos' Hlt) in Hm. discriminate. }
  split; [exact Hgen|].
  intros before after Hnone.
  set (s := before ++ "-UA-1234-" ++ after) in *.
  assert (Hhere : matches_at s (String.length before) "UA" "1234").
  { exists before, after. split; [reflexivity|]. split; [reflexivity|].
    unfold pattern_groups. cbn. repeat split; lia. }
  specialize (Hgen s).
  destruct (fst (extract_airline_code_and_flight_number (Some s) w))
    as [[code number]|e].
  - destruct Hgen as (pos & Hm & Hmin).
    destruct (Nat.lt_trichotomy pos (String.length before)) as [Hlt|[->|Hgt]].
    + exfalso. exact (Hnone pos code number Hlt Hm).
    + apply ReFirst.matches_at_iff in Hm as (rest & Hm).
      apply ReFirst.matches_at_iff in Hhere as (rest' & Hhere).
      rewrite Hm in Hhere. injection Hhere as -> -> _. reflexivity.
    + exfalso. exact (Hmin _ _ _ Hgt Hhere).
  - exfalso. exact (Hgen _ _ _ Hhere).
Qed.

End ExtractionFacts.

(* ===================================================================== *)
(** ** Facts about the list object *)
(* ===================================================================== *)

Lemma length_update_cell a f st :
  List.length (update_cell a f st) = List.length st.
Proof.
  revert a. induction st as [|c st IH]; intros [|a]; cbn; auto.
Qed.

Lemma nth_update_cell a f st :
  (a < List.length st)%nat ->
  nth a (update_cell a f st) [] = f (nth a st []).
Proof.
  revert a. induction st as [|c st IH]; intros [|a] H; cbn in *;
    try lia; [reflexivity|]. apply IH. lia.
Qed.

Lemma firstn_update_cell a f st :
  firstn a (update_cell a f st) = firstn a st.
Proof.
  revert a. induction st as [|c st IH]; intros [|a]; cbn; auto.
  f_equal. apply IH.
Qed.

Section StoreFacts.
Context {C : Collaborators}.

(** The value-threading body appends what [item_fields] builds. *)
Lemma parse_item_item_fields best item fl w :
  parse_item best item fl w
  = (match fst (item_fields best item w) with
     | Ok f => Ok (fl ++ [f])%list
     | Raise e => Raise e
     end,
     snd (item_fields best item w)).
Proof.
  unfold parse_item, item_fields, bind, lift. cbv zeta.
  destruct (rtry _ _ _) as [times|e]; [|reflexivity].
  destruct (stops_fmt_of _) as [sf|e]; [|reflexivity].
  destruct (try_except _ _ _ w) as [[d|e] w1]; reflexivity.
Qed.

(** Both readings of the inner loop, side by side: the cell that
    [flights] names ends as the list the other reading returns; the cells
    before it and the number of cells stay. *)
Lemma for_items_at_spec best items a st w :
  (a < List.length st)%nat ->
  exists st',
    for_items_at best items a st w
    = (match fst (for_items best items (nth a st []) w) with
       | Ok _ => Ok tt
       | Raise e => Raise e
       end,
       st', snd (for_items best items (nth a st []) w))
    /\ List.length st' = List.length st
    /\ firstn a st' = firstn a st
    /\ forall fl', fst (for_items best items (nth a st []) w) = Ok fl' ->
                   nth a st' [] = fl'.
Proof.
  revert st w. induction items as [|item items IH]; intros st w Ha.
  - exists st. cbn. repeat split; auto. intros fl' [= <-]. reflexivity.
  - cbn [for_items_at for_items]. unfold bind_s at 1, bind at 1 2 3.
    unfold parse_item_at, bind_s, lift_s, list_append.
    rewrite parse_item_item_fields.
    destruct (item_fields best item w) as [[f|e] w1]; cbn [fst snd].
    + set (st1 := update_cell a (fun cell => (cell ++ [f])%list) st).
      assert (Ha1 : (a < List.length st1)%nat)
        by (subst st1; rewrite length_update_cell; exact Ha).
      destruct (IH st1 w1 Ha1) as (st' & Hrun & Hlen & Hfirst & Hcell).
      assert (Hn : nth a st1 [] = (nth a st [] ++ [f])%list)
        by (subst st1; apply nth_update_cell; exact Ha).
      rewrite Hn in Hrun, Hcell.
      exists st'. split; [exact Hrun|]. split.
      * rewrite Hlen. subst st1. apply length_update_cell.
      * split; [|exact Hcell].
        rewrite Hfirst. subst st1. apply firstn_update_cell.
    + exists st. repeat split; auto. discriminate.
Qed.

Lemma for_groups_at_spec allow i groups a st w :
  (a < List.length st)%nat ->
  exists st',
    for_groups_at allow i groups a st w
    = (match fst (for_groups allow i groups (nth a st []) w) with
       | Ok _ => Ok tt
       | Raise e => Raise e
       end,
       st', snd (for_groups allow i groups (nth a st []) w))
    /\ List.length st' = List.length st
    /\ firstn a st' = firstn a st
    /\ forall fl', fst (for_groups allow i groups (nth a st []) w) = Ok fl' ->
                   nth a st' [] = fl'.
Proof.
  revert i st w. induction groups as [|g groups IH]; intros i st w Ha.
  - exists st. cbn. repeat split; auto. intros fl' [= <-]. reflexivity.
  - cbn [for_groups_at for_groups]. unfold bind_s at 1, bind at 1 2 3.
    destruct (for_items_at_spec (Nat.eqb i 0) (retained_items allow i g)
                a st w Ha) as (st1 & Hrun & Hlen & Hfirst & Hcell).
    rewrite Hrun.
    destruct (for_items (Nat.eqb i 0) (retained_items allow i g)
                (nth a st []) w) as [[fl1|e] w1]; cbn [fst snd] in *.
    + assert (Ha1 : (a < List.length st1)%nat) by (rewrite Hlen; exact Ha).
      destruct (IH (S i) st1 w1 Ha1) as (st' & Hrun2 & Hlen2 & Hfirst2 & Hc2).
      rewrite (Hcell fl1 eq_refl) in Hrun2, Hc2.
      exists st'. split; [exact Hrun2|]. split; [congruence|].
      split; [congruence|exact Hc2].
    + exists st1. repeat split; auto; discriminate.
Qed.

(** Both readings of [parse_response] give the same outcome and do the
    same to the world; the list objects that were there before the call
    are left as they were. *)
Lemma parse_response_in_store_spec r allow st w :
  exists st',
    parse_response_in_store r allow st w
    = (fst (parse_response r allow w), st', snd (parse_response r allow w))
    /\ firstn (List.length st) st' = st.
Proof.
  unfold parse_response_in_store, parse_response_with, parse_response.
  cbv zeta.
  destruct (css_first (LexborHTMLParser (text r)) date_too_far_selector).
  { exists st. split; [reflexivity|apply firstn_all]. }
  destruct (css_first (LexborHTMLParser (text r)) required_selector).
  2:{ exists st. split; [reflexivity|apply firstn_all]. }
  unfold bind_s at 1. unfold new_list.
  assert (Ha : (List.length st < List.length (st ++ [[]]))%nat)
    by (rewrite length_app; cbn; lia).
  destruct (for_groups_at_spec allow 0
              (css (LexborHTMLParser (text r)) groups_selector)
              (List.length st) (st ++ [[]])%list w Ha)
    as (st' & Hrun & Hlen & Hfirst & Hcell).
  rewrite nth_middle in Hrun, Hcell.
  unfold bind_s at 1. rewrite Hrun. unfold bind.
  exists st'.
  split.
  - destruct (for_groups allow 0
                (css (LexborHTMLParser (text r)) groups_selector) [] w)
      as [[fl|e] w1]; cbn [fst snd] in *; [|reflexivity].
    unfold bind_s, list_items, ret_s, ret. rewrite (Hcell fl eq_refl).
    reflexivity.
  - rewrite Hfirst. rewrite firstn_app, firstn_all, Nat.sub_diag.
    cbn. apply app_nil_r.
Qed.

(** C9.  Read with [flights] as a list object in a store that outlives the
    call: a second run on the same response, started in the store and the
    world the first run left, gives the outcome of the first, the same
    [Result] with the same current price and the same flights in the same
    order, or the same exception; it leaves the list objects of the first
    run as they were, as the first run left those it found; the outcome is
    the same from every store and world; and it is the outcome of
    [parse_response] as read above. *)
Theorem extraction_keeps_no_state r allow st w :
  let first := parse_response_in_store r allow st w in
  let second :=
    parse_response_in_store r allow (snd (fst first)) (snd first) in
  fst (fst second) = fst (fst first)
  /\ firstn (List.length (snd (fst first))) (snd (fst second))
     = snd (fst first)
  /\ firstn (List.length st) (snd (fst first)) = st
  /\ (forall st' w',
        fst (fst (parse_response_in_store r allow st' w'))
        = fst (fst first))
  /\ fst (fst first) = fst (parse_response r allow w).
Proof.
  cbv zeta.
  destruct (parse_response_in_store_spec r allow st w) as (st1 & H1 & F1).
  rewrite H1. cbn [fst snd].
  destruct (parse_response_in_store_spec r allow st1
              (snd (parse_response r allow w))) as (st2 & H2 & F2).
  rewrite H2. cbn [fst snd].
  destruct (parse_response_runs r allow) as (res & out & Hr & _).
  split; [rewrite !Hr; reflexivity|].
  split; [exact F2|]. split; [exact F1|]. split; [|reflexivity].
  intros st' w'.
  destruct (parse_response_in_store_spec r allow st' w') as (st3 & H3 & _).
  rewrite H3. cbn [fst]. rewrite !Hr. reflexivity.
Qed.

End StoreFacts.

(** C7, as the code has it.  The stop count never raises: ["Nonstop"] is
    0; otherwise the text before the first space character is handed to
    [int], whose value is the count, and whose [ValueError] gives
    ["Unknown"].  So ["2 stops"] is 2 and ["mystery"] is ["Unknown"]. *)
Theorem stops_fmt_total :
  (forall stops,
     stops_fmt_of stops
     = Ok (if String.eqb stops "Nonstop" then StopsInt 0
           else match PyStr.int (leading_token stops) with
                | Ok n => StopsInt n
                | Raise _ => StopsStr "Unknown"
                end))
  /\ stops_fmt_of "Nonstop" = Ok (StopsInt 0)
  /\ stops_fmt_of "2 stops" = Ok (StopsInt 2)
  /\ stops_fmt_of "mystery" = Ok (StopsStr "Unknown").
Proof.
  split; [exact stops_fmt_of_eq|].
  repeat split; reflexivity.
Qed.

(* ===================================================================== *)
(** ** Facts about the fetching *)
(* ===================================================================== *)

Section FetchingFacts.
Context {C : Collaborators}.

Definition call_of (s : strategy) (params : dict) : Call :=
  {| call_strategy := s; call_params := params |}.

Lemma request_calls {A} s params (f : Net -> result A * Net) w :
  calls (snd (request s params f w)) = (calls w ++ [call_of s params])%list.
Proof. unfold request. destruct (f (net w)). reflexivity. Qed.

Lemma fetch_calls params proxy w :
  calls (snd (fetch params proxy w))
  = (calls w ++ [call_of DirectHttp params])%list.
Proof.
  unfold fetch, bind. cbv zeta.
  match goal with
  | |- context [request ?s ?p ?f ?w] =>
      pose proof (request_calls s p f w) as H;
      destruct (request s p f w) as [[res|e] w1]
  end; cbn [snd] in *; [|exact H].
  destruct (status_code res =? 200); exact H.
Qed.

(** Every request of the first half carries the [params] it was given. *)
Lemma fetch_by_mode_calls mode params proxy w :
  exists cs,
    calls (snd (fetch_by_mode mode params proxy w)) = (calls w ++ cs)%list
    /\ cs <> []
    /\ Forall (fun c => call_params c = params) cs.
Proof.
  assert (Hone : forall s, [call_of s params] <> []
                           /\ Forall (fun c => call_params c = params)
                                [call_of s params]).
  { intros s. split; [discriminate|]. constructor; [reflexivity|constructor]. }
  assert (Htry : forall m,
            m = fallback \/ m = common ->
            exists cs,
              calls (snd (try_except (fetch params proxy) is_AssertionError
                            (fun e =>
                               if fetch_mode_eqb m fallback
                               then request RemoteBrowser params
                                      (fallback_playwright_fetch params)
                               else raise e) w))
              = (calls w ++ cs)%list
              /\ cs <> []
              /\ Forall (fun c => call_params c = params) cs).
  { intros m Hm. unfold try_except.
    pose proof (fetch_calls params proxy w) as Hf.
    destruct (fetch params proxy w) as [[res|e] w1]; cbn [snd] in *.
    - exists [call_of DirectHttp params]. split; [exact Hf|apply Hone].
    - destruct (is_AssertionError e).
      + destruct Hm as [->| ->]; cbn [fetch_mode_eqb].
        * rewrite request_calls, Hf, <- app_assoc.
          eexists. split; [reflexivity|]. split; [discriminate|].
          repeat constructor.
        * exists [call_of DirectHttp params]. split; [exact Hf|apply Hone].
      + exists [call_of DirectHttp params]. split; [exact Hf|apply Hone]. }
  destruct mode; cbn [fetch_by_mode].
  - apply Htry. auto.
  - apply Htry. auto.
  - eexists. split; [apply request_calls|apply Hone].
  - eexists. split; [apply request_calls|apply Hone].
Qed.

(** A call in mode [local] makes one request, through the local browser,
    and never calls itself. *)
Lemma local_mode_calls filter currency proxy w :
  calls (snd (get_flights_from_filter filter currency local proxy w))
  = (calls w ++ [call_of LocalBrowser (build_params filter currency)])%list.
Proof.
  rewrite get_flights_from_filter_equation_1. cbv zeta.
  unfold bind at 1. cbn [fetch_by_mode].
  pose proof (request_calls LocalBrowser (build_params filter currency)
                (local_playwright_fetch (build_params filter currency)) w)
    as Hq.
  destruct (request LocalBrowser (build_params filter currency)
              (local_playwright_fetch (build_params filter currency)) w)
    as [[res|e] w1]; cbn [snd] in Hq; [|exact Hq].
  unfold try_except.
  pose proof (parse_response_calls res false w1) as Hp.
  destruct (parse_response res false w1) as [[result|e] w2];
    cbn [snd] in *; [congruence|].
  destruct (is_RuntimeError e); [|cbn; congruence].
  unfold bind, logger_debug.
  destruct (fetch_mode_eq_dec local fallback); [discriminate|].
  cbn. congruence.
Qed.

(** C1, as the code has it.  When the document that was fetched makes
    [parse_response] raise [FlightDateTooFarError]: in the modes [common],
    [force_fallback] and [local] the caller gets that error, after a debug
    record and without another request; in mode [fallback] the error is
    caught with every other [RuntimeError], and the call goes on as a call
    in mode [local]. *)
Theorem date_too_far_surfaces_unless_fallback
    filter currency mode proxy w res w1 msg w2 :
  fetch_by_mode mode (build_params filter currency) proxy w = (Ok res, w1) ->
  parse_response res false w1 = (Raise (FlightDateTooFarError msg), w2) ->
  let logged :=
    snd (logger_debug ("RuntimeError in get_flights_from_filter: " ++ msg)
           w2) in
  (mode <> fallback ->
   get_flights_from_filter filter currency mode proxy w
   = (Raise (FlightDateTooFarError msg), logged)
   /\ calls logged = calls w1)
  /\ (mode = fallback ->
      get_flights_from_filter filter currency mode proxy w
      = get_flights_from_filter filter "" local proxy logged).
Proof.
  intros Hf Hp logged.
  pose proof (parse_response_calls res false w1) as Hc.
  rewrite Hp in Hc. cbn [snd] in Hc.
  assert (Heq : get_flights_from_filter filter currency mode proxy w
                = if fetch_mode_eq_dec mode fallback
                  then get_flights_from_filter filter "" local proxy logged
                  else (Raise (FlightDateTooFarError msg), logged)).
  { rewrite get_flights_from_filter_equation_1. cbv zeta.
    unfold bind at 1. rewrite Hf. unfold try_except. rewrite Hp.
    cbn [is_RuntimeError]. unfold bind, logger_debug. cbn [exn_str].
    destruct (fetch_mode_eq_dec mode fallback); reflexivity. }
  rewrite Heq.
  destruct (fetch_mode_eq_dec mode fallback) as [E|E].
  - split; [contradiction|]. intros _. reflexivity.
  - split; [|contradiction]. intros _. split; [reflexivity|].
    subst logged. cbn. exact Hc.
Qed.

(** C10.  In mode [fallback] with a currency, when the document that was
    fetched makes [parse_response] raise a [RuntimeError], one more request
    is made, through the local browser; its parameters are built with the
    empty currency, while every request before it in this call carried
    the currency of the caller. *)
Theorem fallback_retry_drops_currency
    filter currency proxy w res w1 e w2 :
  currency <> "" ->
  fetch_by_mode fallback (build_params filter currency) proxy w
  = (Ok res, w1) ->
  parse_response res false w1 = (Raise e, w2) ->
  is_RuntimeError e = true ->
  exists before,
    calls (snd (get_flights_from_filter filter currency fallback proxy w))
    = (calls w ++ before
         ++ [call_of LocalBrowser (build_params filter "")])%list
    /\ before <> []
    /\ Forall (fun c => dict_get (call_params c) "curr" = Some currency)
         before
    /\ dict_get (build_params filter "") "curr" = Some ""
    /\ build_params filter "" <> build_params filter currency.
Proof.
  intros Hcur Hf Hp He.
  destruct (fetch_by_mode_calls fallback (build_params filter currency)
              proxy w) as (cs & Hcs & Hne & Hall).
  rewrite Hf in Hcs. cbn [snd] in Hcs.
  pose proof (parse_response_calls res false w1) as Hc.
  rewrite Hp in Hc. cbn [snd] in Hc.
  exists cs. split; [|split; [exact Hne|split; [|split]]].
  - rewrite get_flights_from_filter_equation_1. cbv zeta.
    unfold bind at 1. rewrite Hf. unfold try_except. rewrite Hp, He.
    unfold bind, logger_debug.
    destruct (fetch_mode_eq_dec fallback fallback); [|contradiction].
    rewrite local_mode_calls. cbn [calls]. rewrite Hc, Hcs, <- app_assoc.
    reflexivity.
  - eapply Forall_impl; [|exact Hall]. intros c ->. reflexivity.
  - reflexivity.
  - intros H. apply Hcur. unfold build_params in H. congruence.
Qed.

End FetchingFacts.

(* ===================================================================== *)
(** ** The properties on the example pages *)
(* ===================================================================== *)

Module OnPages.
Import Ref Pages.

Definition entry (best : bool) (airline : string) (n : stops_value)
    (cost code number : string) : Flight :=
  {| is_best := best; name := airline;
     departure := "8:00 AM"; arrival := "11:30 AM";
     arrival_time_ahead := ""; duration := "5 hr 30 min";
     stops := n; delay := None; price := cost;
     airline_code := code; flight_number := number |}.

(** What [results_page] should give: both offers of the best group, and
    the first two of the three others. *)
Definition expected_result : Result :=
  {| current_price := "typical";
     flights :=
       [ entry true "United" (StopsInt 0) "$1234" "UA" "1234";
         entry true "Delta" (StopsInt 1) "$980" "DL" "88";
         entry false "Alaska" (StopsInt 2) "$1050" "AS" "310";
         entry false "JetBlue" (StopsInt 0) "0" "B6" "16" ] |}.

(** A site that always answers with [results_page]. *)
Definition plain : Collaborators := site results_page results_page.
Definition plain0 : @World plain := world0 results_page results_page.

(** A site that shows the date-too-far page to a plain HTTP client and
    results to a browser. *)
Definition far : Collaborators := site date_too_far_page results_page.
Definition far0 : @World far := world0 date_too_far_page results_page.

(** A site that shows a page without the required element to a plain
    HTTP client and results to a browser. *)
Definition broken : Collaborators := site no_marker_page results_page.
Definition broken0 : @World broken := world0 no_marker_page results_page.

Definition usd_params : dict := @build_params plain "Zm9v" "USD".

(** The offer of [bad_url_page], as a node of that page. *)
Definition bad_url_item : node :=
  Eval vm_compute in
    hd {| above := []; here := bad_url_page |}
      (@visited plain false 0
         (@css plain
            (@LexborHTMLParser plain (text (response_of bad_url_page)))
            groups_selector)).

(** The end-to-end scenario: two offers in the best group, three in the
    other, four flights. *)
Example results_page_parsed :
  @parse_response plain (response_of results_page) false plain0
  = (Ok expected_result, plain0).
Proof. reflexivity. Qed.

Example results_page_parsed_with_last_items :
  match fst (@parse_response plain (response_of results_page) true plain0)
  with
  | Ok res => map airline_code (flights res) = ["UA"; "DL"; "AS"; "B6"; "AA"]
  | Raise _ => False
  end.
Proof. reflexivity. Qed.

(** Two runs in one store: each makes its own list, and the second gives
    what the first gave. *)
Example two_runs_in_one_store :
  let first :=
    @parse_response_in_store plain (response_of results_page) false []
      plain0 in
  let second :=
    @parse_response_in_store plain (response_of results_page) false
      (snd (fst first)) (snd first) in
  fst (fst first) = Ok expected_result
  /\ fst (fst second) = Ok expected_result
  /\ snd (fst second) = [flights expected_result; flights expected_result].
Proof. repeat split; reflexivity. Qed.

(** The contrast: were [flights] one list shared by the calls, the second
    run would return the flights of both. *)
Example a_shared_list_carries_state :
  let first :=
    @parse_response_sharing plain 0 (response_of results_page) false [[]]
      plain0 in
  let second :=
    @parse_response_sharing plain 0 (response_of results_page) false
      (snd (fst first)) (snd first) in
  fst (fst first) = Ok expected_result
  /\ fst (fst second)
     = Ok {| current_price := "typical";
             flights := (flights expected_result
                         ++ flights expected_result)%list |}.
Proof. split; reflexivity. Qed.

Example missing_pieces_raise :
  map (fun p => fst (@parse_response plain (response_of p) false plain0))
    [bad_url_page; no_attribute_page; no_url_node_page]
  = [Raise IndexError; Raise (KeyError url_attribute); Raise AttributeError].
Proof. reflexivity. Qed.

Example bad_url_is_printed :
  stdout (snd (@parse_response plain (response_of bad_url_page) false plain0))
  = ["No airline code and flight number found in: "
       ++ lookup "SFO-JFK-20250101"].
Proof. reflexivity. Qed.

Example int_examples :
  map PyStr.int
    ["2"; "+2"; "-2"; " 2 "; "1_0"; "_1"; "1_"; "1__0"; "+ 1"; ""; "+";
     "007"; "0x10"; "2 stops"]
  = [Ok 2; Ok 2; Ok (-2); Ok 2; Ok 10; Raise ValueError; Raise ValueError;
     Raise ValueError; Raise ValueError; Raise ValueError; Raise ValueError;
     Ok 7; Raise ValueError; Raise ValueError].
Proof. reflexivity. Qed.

Example findall_examples :
  map Re.findall
    ["-UA-1234-"; "-UAX-1234-"; "x-UA-12345-"; "-UA-12-34-"; "-AB-CD-123-";
     "-ua-1234-"; "-UA-1-"; "-AA-BB-11-22-"; "-AA-11-BB-22-CC-333-"]
  = [[("UA", "1234")]; []; []; [("UA", "12")]; [("CD", "123")]; []; [];
     [("BB", "11")]; [("AA", "11"); ("CC", "333")]].
Proof. reflexivity. Qed.

Example builtin_examples :
  (PyStr.split_space_1 "", PyStr.split_space_1 " 2 stops",
   PyStr.split_space_1 "a b c", PyStr.replace "," "" "a,b,,c",
   PyStr.replace "ab" "x" "aabab", PyStr.replace "" "-" "abc",
   collapse_whitespace " a  b c ", PyStr.replace "aa" "b" "aaa")
  = ([""], [""; "2 stops"], ["a"; "b c"], "abc", "axx", "-a-b-c-",
     "a b c", "ba").
Proof. reflexivity. Qed.

End OnPages.

Import Ref Pages OnPages.

(** Evaluate one side of the goal, and no more. *)
Ltac eval_subject :=
  match goal with
  | |- ?x <> _ => let v := eval vm_compute in x in change x with v
  | |- In _ ?l => let v := eval vm_compute in l in change l with v
  end.

Lemma date_too_far_takes_precedence_witness :
  @parse_response far (response_of date_too_far_page) true far0
  = (Raise (FlightDateTooFarError
              "Requested flight date is too far in the future"), far0).
Proof.
  apply (@date_too_far_takes_precedence far).
  eval_subject. discriminate.
Defined.

Lemma missing_container_is_parsing_error_witness :
  @parse_response broken (response_of no_marker_page) false broken0
  = (Raise (FlightParsingError
              "Required qJTHM element not found in response"), broken0).
Proof.
  apply (@missing_container_is_parsing_error broken).
  reflexivity.
Defined.

Lemma group_entry_counts_witness :
  exists per_group : list (list Flight),
    flights expected_result = List.concat per_group
    /\ List.length per_group = 2%nat
    /\ (exists fs, nth_error per_group 0 = Some fs /\ List.length fs = 2%nat)
    /\ (exists fs, nth_error per_group 1 = Some fs /\ List.length fs = 2%nat).
Proof.
  destruct (@group_entry_counts plain (response_of results_page) false
              plain0 expected_result plain0)
    as (pg & Hf & Hl & Hg).
  - reflexivity.
  - exists pg. split; [exact Hf|]. split; [exact Hl|]. split.
    + destruct (Hg 0%nat
                  (nth 0 (@css plain
                            (@LexborHTMLParser plain
                               (text (response_of results_page)))
                            groups_selector)
                     {| above := []; here := results_page |}))
        as (fs & Hn & _ & Hc); [reflexivity|].
      exists fs. split; [exact Hn|]. rewrite Hc. reflexivity.
    + destruct (Hg 1%nat
                  (nth 1 (@css plain
                            (@LexborHTMLParser plain
                               (text (response_of results_page)))
                            groups_selector)
                     {| above := []; here := results_page |}))
        as (fs & Hn & _ & Hc); [reflexivity|].
      exists fs. split; [exact Hn|]. rewrite Hc. reflexivity.
Defined.

Lemma price_has_no_comma_witness :
  Forall (fun f => no_comma (price f)) (flights expected_result).
Proof.
  apply (@price_has_no_comma plain (response_of results_page) false
           plain0 expected_result plain0).
  reflexivity.
Defined.

Lemma decode_failure_is_not_parsing_error_witness :
  exists e w',
    @parse_response plain (response_of bad_url_page) false plain0
    = (Raise e, w')
    /\ (e = AttributeError \/ e = KeyError url_attribute
        \/ e = TypeError \/ e = IndexError)
    /\ is_RuntimeError e = false
    /\ forall msg, e <> FlightParsingError msg.
Proof.
  apply (@decode_failure_is_not_parsing_error plain
           (response_of bad_url_page) false plain0 bad_url_item IndexError).
  - reflexivity.
  - eval_subject. discriminate.
  - eval_subject. left. reflexivity.
  - eapply (@no_url_match plain); reflexivity.
Defined.

Lemma date_too_far_surfaces_unless_fallback_witness :
  @get_flights_from_filter far "Zm9v" "USD" common None far0
  = (Raise (FlightDateTooFarError
              "Requested flight date is too far in the future"),
     @Build_World far 1%nat []
       ["RuntimeError in get_flights_from_filter: "
          ++ "Requested flight date is too far in the future"]
       [call_of DirectHttp usd_params]).
Proof.
  refine (proj1 (proj1
    (@date_too_far_surfaces_unless_fallback far "Zm9v" "USD" common None
       far0 (response_of date_too_far_page)
       (@Build_World far 1%nat [] [] [call_of DirectHttp usd_params])
       "Requested flight date is too far in the future"
       (@Build_World far 1%nat [] [] [call_of DirectHttp usd_params])
       _ _) _)).
  - reflexivity.
  - reflexivity.
  - discriminate.
Defined.

Lemma fallback_retry_drops_currency_witness :
  exists before,
    calls (snd (@get_flights_from_filter broken "Zm9v" "USD" fallback None
                  broken0))
    = (calls broken0 ++ before
         ++ [call_of LocalBrowser (@build_params broken "Zm9v" "")])%list
    /\ before <> []
    /\ Forall (fun c => dict_get (call_params c) "curr" = Some "USD") before
    /\ dict_get (@build_params broken "Zm9v" "") "curr" = Some ""
    /\ @build_params broken "Zm9v" "" <> @build_params broken "Zm9v" "USD".
Proof.
  apply (@fallback_retry_drops_currency broken "Zm9v" "USD" None broken0
           (response_of no_marker_page)
           (@Build_World broken 1%nat [] [] [call_of DirectHttp usd_params])
           (FlightParsingError "Required qJTHM element not found in response")
           (@Build_World broken 1%nat [] [] [call_of DirectHttp usd_params])).
  - discriminate.
  - reflexivity.
  - reflexivity.
  - reflexivity.
Defined.

(** C1, as stated, fails in mode [fallback]: the first document raises
    [FlightDateTooFarError], yet a second request goes out through the
    local browser and the caller gets the [Result] of its document. *)
Lemma date_too_far_is_retried_in_fallback :
  fst (@fetch_by_mode far fallback usd_params None far0)
  = Ok (response_of date_too_far_page)
  /\ fst (@parse_response far (response_of date_too_far_page) false far0)
     = Raise (FlightDateTooFarError
                "Requested flight date is too far in the future")
  /\ fst (@get_flights_from_filter far "Zm9v" "USD" fallback None far0)
     = Ok expected_result
  /\ map call_strategy
       (calls (snd (@get_flights_from_filter far "Zm9v" "USD" fallback None
                      far0)))
     = [DirectHttp; LocalBrowser].
Proof. repeat split; reflexivity. Qed.

(** A URL of two legs: the first leg is [AA 11], the second [UA 1234]. *)
Definition two_leg_url : string :=
  lookup "SFO-ORD-AA-11-20250101,ORD-JFK-UA-1234-20250101".

(** C3, as stated, fails twice: nothing is decoded from a three-character
    code, as in [-UAX-1234-]; and a text that contains [-UA-1234-] after
    an earlier match gives the earlier pair. *)
Lemma decoder_takes_first_match_and_two_characters :
  fst (@extract_airline_code_and_flight_number plain (Some "-UAX-1234-")
         plain0)
  = Raise IndexError
  /\ fst (@extract_airline_code_and_flight_number plain (Some two_leg_url)
            plain0)
     = Ok ("AA", "11").
Proof. split; reflexivity. Qed.

Lemma decoder_returns_first_match_witness :
  fst (@extract_airline_code_and_flight_number plain
         (Some (lookup "SFO-JFK" ++ "-UA-1234-" ++ "20250101")) plain0)
  = Ok ("UA", "1234").
Proof.
  apply (proj2 (@decoder_returns_first_match plain plain0)
           (lookup "SFO-JFK") "20250101").
  apply ReFirst.no_match_before_sound. vm_compute. reflexivity.
Defined.

(** C7, as stated, fails on a tab: the leading whitespace-delimited token
    of [two_tab_stops] is ["2"], an integer, but the code cuts at a space
    character only and gives ["Unknown"]. *)
Lemma tab_separated_stops_are_unknown :
  stops_fmt_of two_tab_stops = Ok (StopsStr "Unknown")
  /\ stops_fmt_spec two_tab_stops = StopsInt 2.
Proof. split; reflexivity. Qed.

(* ===================================================================== *)
(** ** What [parse_response] prints *)
(* ===================================================================== *)

(** The line the decoder prints when the pattern finds nothing. *)
Definition airline_not_found (url : string) : string :=
  "No airline code and flight number found in: " ++ url.

(** What may have been printed, given the outcome: nothing with a value;
    nothing, or the one line of the decoder, with an [IndexError]; nothing
    with any other exception. *)
Definition prints_ok {A} (r : result A) (out : list string) : Prop :=
  match r with
  | Ok _ => out = []
  | Raise e =>
      out = []
      \/ (e = IndexError /\ exists url, out = [airline_not_found url])
  end.

Section PrintFacts.
Context {C : Collaborators}.

Definition quiet {A} (m : Py A) : Prop :=
  exists r out, runs_as m r out /\ prints_ok r out.

Lemma quiet_lift {A} (r : result A) : quiet (lift r).
Proof.
  exists r, []. split; [apply runs_lift|]. destruct r; cbn; auto.
Qed.

Lemma quiet_ret {A} (a : A) : quiet (ret a).
Proof. exists (Ok a), []. split; [apply runs_ret|reflexivity]. Qed.

Lemma quiet_raise {A} (e : exn) : quiet (@raise _ A e).
Proof. exists (Raise e), []. split; [apply runs_raise|left; reflexivity]. Qed.

Lemma quiet_bind {A B} (m : Py A) (k : A -> Py B) :
  quiet m -> (forall a, quiet (k a)) -> quiet (bind m k).
Proof.
  intros ([a|e] & o1 & Hm & Pm) Hk.
  - cbn in Pm. subst o1. destruct (Hk a) as (r & o2 & H2 & P2).
    exists r, o2. split; [|exact P2].
    apply (runs_bind m k a [] r o2 Hm H2).
  - exists (Raise e), o1. split; [apply runs_bind_raise; exact Hm|exact Pm].
Qed.

(** A handler for [ValueError] around a quiet body. *)
Lemma quiet_try_ValueError {A} (body : Py A) (handler : exn -> Py A) :
  quiet body -> (forall e, quiet (handler e)) ->
  quiet (try_except body is_ValueError handler).
Proof.
  intros ([a|e] & o1 & Hb & Pb) Hh.
  - exists (Ok a), o1. split; [apply runs_try_ok; exact Hb|exact Pb].
  - destruct (is_ValueError e) eqn:E.
    + destruct e; try discriminate.
      destruct Pb as [->|[Hi _]]; [|discriminate].
      destruct (Hh ValueError) as (r & o2 & H2 & P2).
      exists r, o2. split; [|exact P2].
      intros w. unfold try_except. rewrite Hb. cbn [is_ValueError].
      rewrite emit_nil. apply H2.
    + exists (Raise e), o1.
      split; [apply runs_try_pass; assumption|exact Pb].
Qed.

Lemma quiet_extract (s : option string) :
  quiet (extract_airline_code_and_flight_number s).
Proof.
  destruct s as [s|]; [|apply quiet_raise].
  unfold extract_airline_code_and_flight_number.
  destruct (Re.findall s) as [|d l].
  - exists (Raise IndexError), [airline_not_found s]. split.
    + apply (runs_bind _ _ tt [airline_not_found s] _ []);
        [apply runs_print|].
      apply runs_bind_raise. apply runs_lift.
    + right. split; [reflexivity|]. exists s. reflexivity.
  - apply quiet_bind; [apply quiet_ret|]. intros _.
    apply quiet_bind; [apply quiet_lift|]. intros p. apply quiet_ret.
Qed.

Lemma quiet_parse_item best item fl : quiet (parse_item best item fl).
Proof.
  unfold parse_item.
  apply quiet_bind; [apply quiet_lift|]. intros times.
  apply quiet_bind; [apply quiet_lift|]. intros s.
  apply quiet_bind; [|intros d; apply quiet_ret].
  apply quiet_try_ValueError; [|intros e; apply quiet_raise].
  apply quiet_bind; [apply quiet_lift|]. intros attrs.
  apply quiet_bind; [apply quiet_lift|]. intros url.
  apply quiet_extract.
Qed.

Lemma quiet_for_items best items fl : quiet (for_items best items fl).
Proof.
  revert fl. induction items as [|item items IH]; intros fl;
    cbn [for_items]; [apply quiet_ret|].
  apply quiet_bind; [apply quiet_parse_item|]. intros fl'. apply IH.
Qed.

Lemma quiet_for_groups allow i groups fl :
  quiet (for_groups allow i groups fl).
Proof.
  revert i fl. induction groups as [|g groups IH]; intros i fl;
    cbn [for_groups]; [apply quiet_ret|].
  apply quiet_bind; [apply quiet_for_items|]. intros fl'. apply IH.
Qed.

Lemma quiet_parse_response r allow : quiet (parse_response r allow).
Proof.
  unfold parse_response. cbv zeta.
  destruct (css_first (LexborHTMLParser (text r)) date_too_far_selector);
    [apply quiet_raise|].
  destruct (css_first (LexborHTMLParser (text r)) required_selector);
    [|apply quiet_raise].
  apply quiet_bind; [apply quiet_for_groups|]. intros fl. apply quiet_ret.
Qed.

(** A [Result] comes with the world as it was. *)
Lemma parse_response_ok_world r allow w res w' :
  parse_response r allow w = (Ok res, w') -> w' = w.
Proof.
  destruct (quiet_parse_response r allow) as (r0 & out & H & P).
  rewrite H. intros [= -> <-]. cbn in P. subst out. apply emit_nil.
Qed.


(** X2.  [parse_response] returns a [Result] exactly when the document has
    no date-too-far banner, has the required element, and every item the
    loops visit carries a URL in which the pattern finds a code and a
    number. *)
Theorem parse_response_succeeds_iff r allow w :
  (exists res w', parse_response r allow w = (Ok res, w'))
  <-> (css (LexborHTMLParser (text r)) date_too_far_selector = []
       /\ css (LexborHTMLParser (text r)) required_selector <> []
       /\ forall item,
            In item (visited allow 0
                       (css (LexborHTMLParser (text r)) groups_selector)) ->
            exists d, decodes_to item d).
Proof.
  destruct (parse_response_runs r allow) as (r0 & out & H & P).
  cbv zeta in P. rewrite !css_first_None. rewrite H. split.
  - intros (res & w' & [= -> _]).
    destruct (css_first (LexborHTMLParser (text r)) date_too_far_selector);
      [destruct P; discriminate|].
    destruct (css_first (LexborHTMLParser (text r)) required_selector);
      [|destruct P; discriminate].
    split; [reflexivity|]. split; [discriminate|].
    destruct P as (_ & pg & _ & Hg). apply groups_rel_visited in Hg.
    intros item Hin.
    destruct (Forall2_in_left _ _ _ _ Hg Hin) as (f & _ & best & _ & _ & Hd).
    eexists. exact Hd.
  - intros (Hd & Hr & Hall). rewrite Hd in P.
    destruct (css_first (LexborHTMLParser (text r)) required_selector);
      [|contradiction].
    destruct r0 as [res|e]; [eauto|].
    exfalso. destruct P as (item & Hin & Hf).
    destruct (Hall item Hin) as (d & Hdec).
    eapply decode_failure_excludes; eassumption.
Qed.

(** X3.  Whatever [parse_response] raises is the [FlightDateTooFarError]
    of a document with the banner, the [FlightParsingError] of a document
    without the required element, or the exception of a visited item whose
    decoding failed; so a [RuntimeError] comes from the two checks only,
    and the message of the handler around the decoder is never seen. *)
Theorem parse_response_raises_only r allow w e w' :
  parse_response r allow w = (Raise e, w') ->
  (e = FlightDateTooFarError "Requested flight date is too far in the future"
   /\ css (LexborHTMLParser (text r)) date_too_far_selector <> [])
  \/ (e = FlightParsingError "Required qJTHM element not found in response"
      /\ css (LexborHTMLParser (text r)) required_selector = [])
  \/ (is_RuntimeError e = false
      /\ exists item,
           In item (visited allow 0
                      (css (LexborHTMLParser (text r)) groups_selector))
           /\ decode_failure item e).
Proof.
  destruct (parse_response_runs r allow) as (r0 & out & H & P).
  cbv zeta in P. rewrite H. intros [= -> _].
  destruct (css_first (LexborHTMLParser (text r)) date_too_far_selector)
    eqn:Ed.
  { left. destruct P as [[= ->] _]. split; [reflexivity|].
    rewrite css_first_None, Ed. discriminate. }
  destruct (css_first (LexborHTMLParser (text r)) required_selector)
    eqn:Er.
  - right. right. destruct P as (item & Hin & Hf).
    split; [eapply decode_failure_not_runtime; exact Hf|eauto].
  - right. left. destruct P as [[= ->] _]. split; [reflexivity|].
    apply css_first_None. exact Er.
Qed.

End PrintFacts.

(* ===================================================================== *)
(** ** Whitespace collapse *)
(* ===================================================================== *)

Module CollapseFacts.
Import PyStr PyFacts.

(** A token: not empty and without a whitespace character. *)
Definition is_token (t : string) : Prop :=
  chars t <> [] /\ forallb (fun c => negb (is_space c)) (chars t) = true.

Lemma split_ws_aux_flush_nil cur :
  cur <> [] -> split_ws_aux [] cur = [str (rev cur)].
Proof. destruct cur; [contradiction|reflexivity]. Qed.

Lemma split_ws_aux_flush_space c rest cur :
  cur <> [] -> is_space c = true ->
  split_ws_aux (c :: rest) cur = str (rev cur) :: split_ws_aux rest [].
Proof.
  intros Hc Hs. cbn [split_ws_aux]. rewrite Hs.
  destruct cur; [contradiction|reflexivity].
Qed.

Lemma split_ws_aux_token tok rest cur :
  forallb (fun c => negb (is_space c)) tok = true ->
  split_ws_aux (tok ++ rest) cur = split_ws_aux rest (rev tok ++ cur).
Proof.
  revert cur. induction tok as [|c tok IH]; intros cur H; [reflexivity|].
  cbn in H. apply Bool.andb_true_iff in H as [Hc Ht].
  apply Bool.negb_true_iff in Hc.
  cbn [app split_ws_aux rev]. rewrite Hc, (IH _ Ht), <- app_assoc.
  reflexivity.
Qed.

Lemma rev_not_nil {A} (l : list A) : l <> [] -> rev l <> [].
Proof.
  destruct l as [|x l]; [contradiction|]. intros _ H.
  apply (f_equal (@List.length A)) in H. cbn in H.
  rewrite length_app in H. cbn in H. lia.
Qed.

(** The tokens of a text are tokens. *)
Lemma split_ws_aux_tokens cs cur :
  forallb (fun c => negb (is_space c)) cur = true ->
  Forall is_token (split_ws_aux cs cur).
Proof.
  assert (Hflush : forall cur,
            cur <> [] ->
            forallb (fun c => negb (is_space c)) cur = true ->
            is_token (str (rev cur))).
  { intros cur0 Hn Hc. unfold is_token. rewrite chars_str.
    split; [apply rev_not_nil; exact Hn|].
    apply forallb_forall. intros x Hx. apply in_rev in Hx.
    exact (proj1 (forallb_forall _ _) Hc x Hx). }
  revert cur. induction cs as [|c r IH]; intros cur Hc; cbn [split_ws_aux].
  - destruct cur as [|x cur]; [constructor|].
    constructor; [|constructor]. apply Hflush; [discriminate|exact Hc].
  - destruct (is_space c) eqn:Es.
    + destruct cur as [|x cur]; [apply IH; reflexivity|].
      constructor; [apply Hflush; [discriminate|exact Hc]|].
      apply IH. reflexivity.
    + apply IH. cbn. rewrite Es. exact Hc.
Qed.

(** Tokens joined by single spaces split into themselves. *)
Lemma split_ws_join toks :
  Forall is_token toks -> split_ws (join " " toks) = toks.
Proof.
  unfold split_ws.
  induction 1 as [|t toks [Hn Hc] Hall IH]; [reflexivity|].
  destruct toks as [|t2 toks].
  - cbn [join]. rewrite <- (app_nil_r (chars t)).
    rewrite (split_ws_aux_token _ _ _ Hc), app_nil_r.
    rewrite split_ws_aux_flush_nil by (apply rev_not_nil; exact Hn).
    rewrite rev_involutive, str_chars. reflexivity.
  - change (join " " (t :: t2 :: toks))
      with (t ++ " " ++ join " " (t2 :: toks)).
    rewrite chars_app.
    change (chars (" " ++ join " " (t2 :: toks)))
      with (" "%char :: chars (join " " (t2 :: toks))).
    rewrite (split_ws_aux_token _ _ _ Hc), app_nil_r.
    rewrite split_ws_aux_flush_space
      by (try (apply rev_not_nil; exact Hn); reflexivity).
    rewrite rev_involutive, str_chars, IH. reflexivity.
Qed.

Lemma collapse_whitespace_idem t :
  collapse_whitespace (collapse_whitespace t) = collapse_whitespace t.
Proof.
  unfold collapse_whitespace. rewrite split_ws_join; [reflexivity|].
  apply split_ws_aux_tokens. reflexivity.
Qed.

End CollapseFacts.

(** X4.  The whitespace collapse of the departure and arrival texts gives
    tokens without whitespace joined by single spaces, and collapsing
    again changes nothing. *)
Theorem collapse_whitespace_normal_form (t : string) :
  (exists tokens,
     collapse_whitespace t = PyStr.join " " tokens
     /\ Forall CollapseFacts.is_token tokens)
  /\ collapse_whitespace (collapse_whitespace t) = collapse_whitespace t.
Proof.
  split; [|apply CollapseFacts.collapse_whitespace_idem].
  exists (PyStr.split_ws t). split; [reflexivity|].
  apply CollapseFacts.split_ws_aux_tokens. reflexivity.
Qed.

(* ===================================================================== *)
(** ** The fields of an entry *)
(* ===================================================================== *)

Section EntryFacts.
Context {C : Collaborators}.

(** The two time texts of an item: those of its first two time nodes, or
    two empty strings when it has fewer. *)
Definition times_of (item : LexborNode) : string * string :=
  match css item "span.mv1WYe div" with
  | d :: a :: _ => (node_text d true, node_text a true)
  | _ => ("", "")
  end.

(** The entry of [item], given what its URL decodes to. *)
Definition entry_of (best : bool) (item : LexborNode) (d : string * string)
    : Flight :=
  let stops := text_of (safe (css_first item ".BbR8Ec .ogfYpf")) false in
  {| is_best := best;
     name :=
       text_of (safe (css_first item "div.sSHqwe.tPgKwe.ogfYpf span")) true;
     departure := collapse_whitespace (fst (times_of item));
     arrival := collapse_whitespace (snd (times_of item));
     arrival_time_ahead := text_of (safe (css_first item "span.bOzv6")) false;
     duration := text_of (safe (css_first item "li div.Ak5kof div")) false;
     stops :=
       if String.eqb stops "Nonstop" then StopsInt 0
       else match PyStr.int (leading_token stops) with
            | Ok n => StopsInt n
            | Raise _ => StopsStr "Unknown"
            end;
     delay := str_or_None (text_of (safe (css_first item ".GsCCve")) false);
     price := expected_price item;
     airline_code := fst d;
     flight_number := snd d |}.

Definition entry_rel (best : bool) (item : LexborNode) (f : Flight) : Prop :=
  exists d, f = entry_of best item d /\ decodes_to item d.

Lemma price_expected item :
  PyStr.replace "," ""
    (str_or (text_of (safe (css_first item ".YMlIz.FpEdX")) false) "0")
  = expected_price item.
Proof.
  rewrite PyFacts.replace_comma. unfold expected_price, str_or.
  destruct (css_first item ".YMlIz.FpEdX") as [n|];
    cbn [safe text_of]; [|reflexivity].
  destruct (String.eqb (node_text n false) ""); reflexivity.
Qed.

Lemma parse_item_entry best item fl :
  exists r out,
    runs_as (parse_item best item fl) r out
    /\ match r with
       | Ok fl' => exists f, fl' = (fl ++ [f])%list /\ entry_rel best item f
       | Raise e => decode_failure item e
       end.
Proof.
  destruct (decode_runs item) as (rd & out & Hd & Hrd).
  unfold parse_item. rewrite times_eq, stops_fmt_of_eq, price_expected.
  destruct rd as [d|e].
  - eexists (Ok _), out. split.
    + eapply (runs_bind _ _ _ [] _ out); [apply runs_lift|].
      eapply (runs_bind _ _ _ [] _ out); [apply runs_lift|].
      replace out with (out ++ [])%list by apply app_nil_r.
      eapply runs_bind; [exact Hd|]. apply runs_ret.
    + eexists. split; [reflexivity|]. exists d. split; [reflexivity|exact Hrd].
  - exists (Raise e), out. split; [|exact Hrd].
    eapply (runs_bind _ _ _ [] _ out); [apply runs_lift|].
    eapply (runs_bind _ _ _ [] _ out); [apply runs_lift|].
    apply runs_bind_raise. exact Hd.
Qed.

Lemma for_items_entries best items fl :
  exists r out,
    runs_as (for_items best items fl) r out
    /\ forall fl', r = Ok fl' ->
         exists fs, fl' = (fl ++ fs)%list
                    /\ Forall2 (fun item f => exists b, entry_rel b item f)
                         items fs.
Proof.
  revert fl. induction items as [|item items IH]; intros fl.
  - exists (Ok fl), []. split; [apply runs_ret|].
    intros fl' [= <-]. exists []. rewrite app_nil_r. auto.
  - cbn [for_items].
    destruct (parse_item_entry best item fl) as ([fl1|e] & o1 & H1 & P1).
    + destruct P1 as (f & -> & Pf).
      destruct (IH (fl ++ [f])%list) as (r & o2 & H2 & P2).
      exists r, (o1 ++ o2)%list. split; [eapply runs_bind; eassumption|].
      intros fl' ->. destruct (P2 fl' eq_refl) as (fs & -> & Pfs).
      exists (f :: fs). rewrite <- app_assoc. split; [reflexivity|].
      constructor; [exists best; exact Pf|exact Pfs].
    + exists (Raise e), o1. split; [apply runs_bind_raise; exact H1|].
      discriminate.
Qed.

Lemma for_groups_entries allow i groups fl :
  exists r out,
    runs_as (for_groups allow i groups fl) r out
    /\ forall fl', r = Ok fl' ->
         exists fs, fl' = (fl ++ fs)%list
                    /\ Forall2 (fun item f => exists b, entry_rel b item f)
                         (visited allow i groups) fs.
Proof.
  revert i fl. induction groups as [|g groups IH]; intros i fl.
  - exists (Ok fl), []. split; [apply runs_ret|].
    intros fl' [= <-]. exists []. rewrite app_nil_r. cbn. auto.
  - cbn [for_groups visited].
    destruct (for_items_entries (Nat.eqb i 0) (retained_items allow i g) fl)
      as ([fl1|e] & o1 & H1 & P1).
    + destruct (P1 fl1 eq_refl) as (fs & -> & Pfs).
      destruct (IH (S i) (fl ++ fs)%list) as (r & o2 & H2 & P2).
      exists r, (o1 ++ o2)%list. split; [eapply runs_bind; eassumption|].
      intros fl' ->. destruct (P2 fl' eq_refl) as (fs2 & -> & Pfs2).
      exists (fs ++ fs2)%list. rewrite <- app_assoc. split; [reflexivity|].
      apply Forall2_app; assumption.
    + exists (Raise e), o1. split; [apply runs_bind_raise; exact H1|].
      discriminate.
Qed.

(** The flights of a [Result] are the entries of the visited items, in
    order. *)
Lemma parse_response_entries r allow w res w' :
  parse_response r allow w = (Ok res, w') ->
  Forall2 (fun item f => exists b, entry_rel b item f)
    (visited allow 0 (css (LexborHTMLParser (text r)) groups_selector))
    (flights res).
Proof.
  unfold parse_response. cbv zeta.
  destruct (css_first (LexborHTMLParser (text r)) date_too_far_selector);
    [discriminate|].
  destruct (css_first (LexborHTMLParser (text r)) required_selector);
    [|discriminate].
  destruct (for_groups_entries allow 0
              (css (LexborHTMLParser (text r)) groups_selector) [])
    as (r0 & out & H & P).
  unfold bind. rewrite H. destruct r0 as [fl|e]; [|discriminate].
  intros [= <- _]. cbn [flights].
  destruct (P fl eq_refl) as (fs & -> & Hfs). exact Hfs.
Qed.

(** X5.  Every flight of a [Result] has: a delay that is absent or not
    empty; a stop count that is an integer or ["Unknown"]; an airline code
    of two upper-case letters or digits and a flight number of two to four
    digits; departure and arrival texts that the whitespace collapse
    leaves as they are. *)
Theorem flight_invariants r allow w res w' :
  parse_response r allow w = (Ok res, w') ->
  Forall
    (fun f =>
       delay f <> Some ""
       /\ (stops f = StopsStr "Unknown" \/ exists n, stops f = StopsInt n)
       /\ pattern_groups (airline_code f) (flight_number f)
       /\ collapse_whitespace (departure f) = departure f
       /\ collapse_whitespace (arrival f) = arrival f)
    (flights res).
Proof.
  intros H. apply parse_response_entries in H.
  induction H as [|item f its fs (b & d & -> & Hd) _ IH]; constructor;
    [|exact IH].
  unfold entry_of. cbv zeta.
  cbn [delay stops airline_code flight_number departure arrival].
  split; [|split; [|split; [|split]]].
  - unfold str_or_None.
    destruct (String.eqb (text_of (safe (css_first item ".GsCCve")) false) "")
      eqn:E; [discriminate|].
    intros [= Ht]. rewrite Ht in E. discriminate.
  - destruct (String.eqb _ "Nonstop"); [right; eauto|].
    destruct (PyStr.int _); [right; eauto|left; reflexivity].
  - destruct Hd as (n & url & l & _ & _ & Hf). destruct d as [g1 g2].
    apply (ReFacts.findall_head_sound _ _ _ _ Hf).
  - apply CollapseFacts.collapse_whitespace_idem.
  - apply CollapseFacts.collapse_whitespace_idem.
Qed.

(** X6.  In a [Result], the departure and arrival of an entry are the
    collapsed texts of the first two time nodes of its item; an item with
    fewer than two time nodes gets two empty strings, also when it has
    one. *)
Theorem times_both_or_none r allow w res w' :
  parse_response r allow w = (Ok res, w') ->
  Forall2
    (fun item f =>
       match css item "span.mv1WYe div" with
       | d :: a :: _ =>
           departure f = collapse_whitespace (node_text d true)
           /\ arrival f = collapse_whitespace (node_text a true)
       | _ => departure f = "" /\ arrival f = ""
       end)
    (visited allow 0 (css (LexborHTMLParser (text r)) groups_selector))
    (flights res).
Proof.
  intros H. apply parse_response_entries in H.
  eapply Forall2_impl; [|exact H].
  intros item f (b & d & -> & _). unfold entry_of, times_of. cbv zeta.
  cbn [departure arrival].
  destruct (css item "span.mv1WYe div") as [|x [|y l]]; split; reflexivity.
Qed.

End EntryFacts.

(* ===================================================================== *)
(** ** The requests and outcomes of a call *)
(* ===================================================================== *)

(** The client [fetch] builds, and where and with what it asks. *)
Definition fetch_client (proxy : option string) : ClientConfig :=
  {| impersonate := "chrome_126"; verify := false; client_proxy := proxy |}.

Definition flights_url : string := "https://www.google.com/travel/flights".

Definition consent_cookies : dict :=
  [("CONSENT", "PENDING+987");
   ("SOCS", "CAESHAgBEhJnd3NfMjAyMzA4MTAtMF9SQzIaAmRlIAEaBgiAo_CmBg")].

(** The strategies a call may go through, in order, by mode. *)
Definition first_phase_chains (mode : fetch_mode) : list (list strategy) :=
  match mode with
  | common => [[DirectHttp]]
  | fallback => [[DirectHttp]; [DirectHttp; RemoteBrowser]]
  | force_fallback => [[RemoteBrowser]]
  | local => [[LocalBrowser]]
  end.

Definition chains (mode : fetch_mode) : list (list strategy) :=
  match mode with
  | fallback =>
      [[DirectHttp]; [DirectHttp; RemoteBrowser];
       [DirectHttp; LocalBrowser];
       [DirectHttp; RemoteBrowser; LocalBrowser]]
  | _ => first_phase_chains mode
  end.

Section CallFacts.
Context {C : Collaborators}.

(** The world after the debug record of the handler. *)
Definition logged (e : exn) (w : World) : World :=
  snd (logger_debug ("RuntimeError in get_flights_from_filter: "
                       ++ exn_str e) w).

(** X7.  What [fetch] returns is an answer of the HTTP client with status
    200, obtained by one request with the given parameters, the fixed
    cookies and the given proxy; nothing is printed or logged. *)
Theorem fetch_returns_only_200 params proxy w res w' :
  fetch params proxy w = (Ok res, w') ->
  status_code res = 200
  /\ Client_get (fetch_client proxy) flights_url params consent_cookies
       (net w) = (Ok res, net w')
  /\ calls w' = (calls w ++ [call_of DirectHttp params])%list
  /\ stdout w' = stdout w /\ debug_log w' = debug_log w.
Proof.
  unfold fetch, bind, request. cbv zeta.
  fold (fetch_client proxy). fold flights_url. fold consent_cookies.
  destruct (Client_get (fetch_client proxy) flights_url params
              consent_cookies (net w)) as [[a|e] n']; [|discriminate].
  destruct (status_code a =? 200) eqn:E; [|discriminate].
  intros [= -> <-]. apply Z.eqb_eq in E. cbn. auto.
Qed.

(** X8.  An answer of the HTTP client with another status makes [fetch]
    raise an [AssertionError] whose message is the status, [" Result: "]
    and the markdown text of the answer. *)
Theorem fetch_rejects_other_status params proxy w res n' :
  Client_get (fetch_client proxy) flights_url params consent_cookies (net w)
  = (Ok res, n') ->
  status_code res <> 200 ->
  fst (fetch params proxy w)
  = Raise (AssertionError
             (str_of_int (status_code res) ++ " Result: "
                ++ text_markdown res)).
Proof.
  intros H Hs. unfold fetch, bind, request. cbv zeta.
  fold (fetch_client proxy). fold flights_url. fold consent_cookies.
  rewrite H. apply Z.eqb_neq in Hs. rewrite Hs. reflexivity.
Qed.

(** X9.  When [fetch] raises: an [AssertionError] is passed on in mode
    [common] and answered in mode [fallback] by one request to the remote
    browser with the same parameters; any other exception is passed on in
    both modes, without a request to a browser. *)
Theorem first_phase_escalates_on_assertion_only params proxy w e w1 :
  fetch params proxy w = (Raise e, w1) ->
  fetch_by_mode common params proxy w = (Raise e, w1)
  /\ fetch_by_mode fallback params proxy w
     = if is_AssertionError e
       then request RemoteBrowser params (fallback_playwright_fetch params) w1
       else (Raise e, w1).
Proof.
  intros H. cbn [fetch_by_mode]. unfold try_except. rewrite H.
  cbn [fetch_mode_eqb]. destruct (is_AssertionError e); auto.
Qed.

Lemma fetch_by_mode_chain mode params proxy w :
  exists cs,
    calls (snd (fetch_by_mode mode params proxy w)) = (calls w ++ cs)%list
    /\ In (map call_strategy cs) (first_phase_chains mode)
    /\ Forall (fun c => call_params c = params) cs.
Proof.
  assert (Hone : forall s, Forall (fun c => call_params c = params)
                             [call_of s params]).
  { intros s. constructor; [reflexivity|constructor]. }
  assert (Htry : forall m,
            exists cs,
              calls (snd (try_except (fetch params proxy) is_AssertionError
                            (fun e =>
                               if fetch_mode_eqb m fallback
                               then request RemoteBrowser params
                                      (fallback_playwright_fetch params)
                               else raise e) w))
              = (calls w ++ cs)%list
              /\ (map call_strategy cs = [DirectHttp]
                  \/ (m = fallback
                      /\ map call_strategy cs = [DirectHttp; RemoteBrowser]))
              /\ Forall (fun c => call_params c = params) cs).
  { intros m. unfold try_except.
    pose proof (fetch_calls params proxy w) as Hf.
    destruct (fetch params proxy w) as [[res|e] w1]; cbn [snd] in *.
    - exists [call_of DirectHttp params]. auto.
    - destruct (is_AssertionError e).
      + destruct m; cbn [fetch_mode_eqb];
          try solve [exists [call_of DirectHttp params]; auto].
        rewrite request_calls, Hf, <- app_assoc.
        eexists. split; [reflexivity|]. split; [right; auto|].
        repeat constructor.
      + exists [call_of DirectHttp params]. auto. }
  destruct mode; cbn [fetch_by_mode first_phase_chains].
  - destruct (Htry common) as (cs & H1 & [H2|[H2 _]] & H3);
      [|discriminate]. exists cs. rewrite H2. cbn. auto.
  - destruct (Htry fallback) as (cs & H1 & [H2|[_ H2]] & H3);
      exists cs; rewrite H2; cbn; auto.
  - eexists. split; [apply request_calls|]. cbn. auto.
  - eexists. split; [apply request_calls|]. cbn. auto.
Qed.

Lemma first_phase_in_chains mode l :
  In l (first_phase_chains mode) -> In l (chains mode).
Proof. destruct mode; cbn; tauto. Qed.

(** The parameters a request of a call carries: those built with the
    empty currency for the request to the local browser in mode
    [fallback], those built with the currency of the caller for every
    other request. *)
Definition params_of_call (filter : TFSData) (currency : string)
    (mode : fetch_mode) (s : strategy) : dict :=
  match mode, s with
  | fallback, LocalBrowser => build_params filter ""
  | _, _ => build_params filter currency
  end.

Lemma first_phase_params filter currency mode cs :
  In (map call_strategy cs) (first_phase_chains mode) ->
  Forall (fun c => call_params c = build_params filter currency) cs ->
  Forall
    (fun c =>
       call_params c = params_of_call filter currency mode (call_strategy c))
    cs.
Proof.
  intros Hin Hall.
  assert (Hno : mode = fallback ->
                Forall (fun c => call_strategy c <> LocalBrowser) cs).
  { intros ->. cbn in Hin.
    destruct Hin as [H|[H|[]]];
      destruct cs as [|c1 [|c2 [|c3 cs]]]; try discriminate;
      cbn in H; injection H; intros; repeat constructor; congruence. }
  apply Forall_forall. intros c Hc.
  rewrite (proj1 (Forall_forall _ _) Hall c Hc).
  destruct mode; try (destruct (call_strategy c); reflexivity).
  pose proof (proj1 (Forall_forall _ _) (Hno eq_refl) c Hc) as Hn.
  destruct (call_strategy c) eqn:E; try reflexivity. congruence.
Qed.

(** The requests of a call: their strategies follow one of the chains of
    the mode, and each carries the parameters of [params_of_call]. *)
Lemma gff_calls filter currency mode proxy w :
  exists cs,
    calls (snd (get_flights_from_filter filter currency mode proxy w))
    = (calls w ++ cs)%list
    /\ In (map call_strategy cs) (chains mode)
    /\ Forall
         (fun c =>
            call_params c
            = params_of_call filter currency mode (call_strategy c))
         cs.
Proof.
  destruct (fetch_by_mode_chain mode (build_params filter currency) proxy w)
    as (cs & Hcs & Hin & Hall).
  pose proof (first_phase_params filter currency mode cs Hin Hall) as Hex.
  assert (Hsame : exists cs0,
            (calls w ++ cs)%list = (calls w ++ cs0)%list
            /\ In (map call_strategy cs0) (chains mode)
            /\ Forall
                 (fun c =>
                    call_params c
                    = params_of_call filter currency mode (call_strategy c))
                 cs0).
  { exists cs. split; [reflexivity|].
    split; [apply first_phase_in_chains; exact Hin|exact Hex]. }
  rewrite get_flights_from_filter_equation_1. cbv zeta. unfold bind at 1.
  destruct (fetch_by_mode mode (build_params filter currency) proxy w)
    as [[res|e] w1]; cbn [snd] in Hcs; [|cbn [snd]; rewrite Hcs; exact Hsame].
  unfold try_except.
  pose proof (parse_response_calls res false w1) as Hp.
  destruct (parse_response res false w1) as [[result|e] w2];
    cbn [snd] in *; [rewrite Hp, Hcs; exact Hsame|].
  destruct (is_RuntimeError e); [|cbn [snd]; rewrite Hp, Hcs; exact Hsame].
  unfold bind, logger_debug.
  destruct (fetch_mode_eq_dec mode fallback) as [->|Hm];
    [|cbn; rewrite Hp, Hcs; exact Hsame].
  rewrite local_mode_calls. cbn [calls]. rewrite Hp, Hcs, <- app_assoc.
  exists (cs ++ [call_of LocalBrowser (build_params filter "")])%list.
  split; [reflexivity|]. split.
  - rewrite map_app. cbn [map call_of call_strategy].
    cbn in Hin. destruct Hin as [<-|[<-|[]]]; cbn; auto.
  - apply Forall_app. split; [exact Hex|].
    constructor; [reflexivity|constructor].
Qed.

(** X10.  A call asks at most three times, in a fixed order: once through
    the HTTP client in mode [common], once through the remote browser in
    mode [force_fallback], once through the local browser in mode [local];
    in mode [fallback] through the HTTP client, then possibly the remote
    browser, then possibly the local browser.  The request to the local
    browser in mode [fallback], the retry, carries the parameters built
    with the empty currency; every other request carries those built with
    the currency of the caller. *)
Theorem requests_follow_the_chain filter currency mode proxy w :
  exists cs,
    calls (snd (get_flights_from_filter filter currency mode proxy w))
    = (calls w ++ cs)%list
    /\ In (map call_strategy cs) (chains mode)
    /\ Forall
         (fun c =>
            call_params c
            = match mode, call_strategy c with
              | fallback, LocalBrowser => build_params filter ""
              | _, _ => build_params filter currency
              end)
         cs.
Proof. apply gff_calls. Qed.

(** X11.  An exception of the first phase reaches the caller as it is,
    with no parsing, no debug record and no retry; so does a
    [RuntimeError] of a browser driver, which is raised outside the [try]
    block. *)
Theorem fetch_failure_surfaces filter currency mode proxy w e w1 :
  fetch_by_mode mode (build_params filter currency) proxy w = (Raise e, w1) ->
  get_flights_from_filter filter currency mode proxy w = (Raise e, w1).
Proof.
  intros H. rewrite get_flights_from_filter_equation_1. cbv zeta.
  unfold bind at 1. rewrite H. reflexivity.
Qed.

(** X12.  When the fetched document parses, the caller gets its [Result],
    and the world is as the first phase left it: nothing printed, no debug
    record, no further request. *)
Theorem parsed_result_is_returned filter currency mode proxy w res w1
    result w2 :
  fetch_by_mode mode (build_params filter currency) proxy w = (Ok res, w1) ->
  parse_response res false w1 = (Ok result, w2) ->
  get_flights_from_filter filter currency mode proxy w = (Ok result, w1).
Proof.
  intros Hf Hp. pose proof (parse_response_ok_world _ _ _ _ _ Hp) as ->.
  rewrite get_flights_from_filter_equation_1. cbv zeta.
  unfold bind at 1. rewrite Hf. unfold try_except. rewrite Hp. reflexivity.
Qed.

Lemma parse_failure_handling_aux filter currency mode proxy w res w1 e w2 :
  fetch_by_mode mode (build_params filter currency) proxy w = (Ok res, w1) ->
  parse_response res false w1 = (Raise e, w2) ->
  get_flights_from_filter filter currency mode proxy w
  = if is_RuntimeError e
    then if fetch_mode_eqb mode fallback
         then get_flights_from_filter filter "" local proxy (logged e w2)
         else (Raise e, logged e w2)
    else (Raise e, w2).
Proof.
  intros Hf Hp. rewrite get_flights_from_filter_equation_1. cbv zeta.
  unfold bind at 1. rewrite Hf. unfold try_except. rewrite Hp.
  destruct (is_RuntimeError e); [|reflexivity].
  unfold bind, logger_debug, logged.
  destruct (fetch_mode_eq_dec mode fallback) as [->|Hm]; [reflexivity|].
  destruct mode; try contradiction; reflexivity.
Qed.

(** X13.  When parsing the fetched document raises [e]: if [e] is no
    [RuntimeError] the caller gets it at once, in every mode; if it is one,
    a debug record is written, and then the caller gets [e], but in mode
    [fallback], where the call goes on as a call in mode [local] with the
    same filter and proxy and the empty currency. *)
Theorem parse_failure_handling filter currency mode proxy w res w1 e w2 :
  fetch_by_mode mode (build_params filter currency) proxy w = (Ok res, w1) ->
  parse_response res false w1 = (Raise e, w2) ->
  get_flights_from_filter filter currency mode proxy w
  = if is_RuntimeError e
    then if fetch_mode_eqb mode fallback
         then get_flights_from_filter filter "" local proxy (logged e w2)
         else (Raise e, logged e w2)
    else (Raise e, w2).
Proof. apply parse_failure_handling_aux. Qed.

(** X14.  An item whose airline code cannot be decoded is never retried:
    when the fetched document passes both checks and has such an item
    among the visited ones, the caller gets an exception that is no
    [RuntimeError], in every mode, [fallback] included, with no further
    request and no debug record. *)
Theorem malformed_item_is_not_retried filter currency mode proxy w res w1
    item e0 :
  fetch_by_mode mode (build_params filter currency) proxy w = (Ok res, w1) ->
  css (LexborHTMLParser (text res)) date_too_far_selector = [] ->
  css (LexborHTMLParser (text res)) required_selector <> [] ->
  In item (visited false 0
             (css (LexborHTMLParser (text res)) groups_selector)) ->
  decode_failure item e0 ->
  exists e w3,
    get_flights_from_filter filter currency mode proxy w = (Raise e, w3)
    /\ is_RuntimeError e = false
    /\ calls w3 = calls w1
    /\ debug_log w3 = debug_log w1.
Proof.
  intros Hf Hd Hr Hin Hfail.
  destruct (parse_response_runs res false) as (r0 & out & H & P).
  cbv zeta in P. apply css_first_None in Hd. rewrite Hd in P.
  destruct (css_first (LexborHTMLParser (text res)) required_selector) eqn:Er;
    [|apply css_first_None in Er; contradiction].
  destruct r0 as [result|e].
  - exfalso. destruct P as (_ & pg & _ & Hg).
    apply groups_rel_visited in Hg.
    destruct (Forall2_in_left _ _ _ _ Hg Hin) as (f & _ & b & _ & _ & Hdec).
    eapply decode_failure_excludes; eassumption.
  - destruct P as (it & _ & Hfe).
    pose proof (decode_failure_not_runtime _ _ Hfe) as Hnr.
    exists e, (emit out w1). split; [|auto].
    rewrite get_flights_from_filter_equation_1. cbv zeta.
    unfold bind at 1. rewrite Hf. unfold try_except. rewrite H, Hnr.
    reflexivity.
Qed.

End CallFacts.

Section GetFlightsFacts.
Context {C : Collaborators}.
Variables FlightData Passengers : Type.
Variable from_interface :
  list FlightData -> trip_kind -> Passengers -> seat_kind -> option Z ->
  result TFSData.


End GetFlightsFacts.

(* ===================================================================== *)
(** ** These properties on example pages *)
(* ===================================================================== *)

Module MorePages.

(** An offer with a single time node and a delay. *)
Definition one_time_offer : tree :=
  Elem "li" []
    [ el "div" "sSHqwe tPgKwe ogfYpf" [Elem "span" [] [Txt "United"]];
      el "span" "mv1WYe" [Elem "div" [] [Txt "8:00 AM"]];
      el "div" "BbR8Ec" [el "span" "ogfYpf" [Txt "1 stop"]];
      el "div" "GsCCve" [Txt "Delayed by 30 min"];
      url_node [("data-travelimpactmodelwebsiteurl",
                 Some (lookup "SFO-JFK-UA-1234-20250101"))] ].

Definition one_time_page : tree :=
  page [results_marker; group "IWWDBc" [one_time_offer]].

Definition one_time_site : Collaborators :=
  collaborators ((render one_time_page, one_time_page) :: all_pages)
    (fun _ _ _ => Ok (response_of one_time_page)).

Definition one_time0 : @World one_time_site :=
  @Build_World one_time_site 0%nat [] [] [].

Definition one_time_result : Result :=
  {| current_price := "";
     flights :=
       [{| is_best := true; name := "United";
           departure := ""; arrival := "";
           arrival_time_ahead := ""; duration := "";
           stops := StopsInt 1; delay := Some "Delayed by 30 min";
           price := "0"; airline_code := "UA"; flight_number := "1234" |}] |}.

(** The answer of a provider that turns plain HTTP clients away. *)
Definition too_many_requests : Response :=
  {| status_code := 429; text := "";
     text_markdown := "Too Many Requests" |}.

(** A site that turns plain HTTP clients away and shows results to a
    browser. *)
Definition blocking : Collaborators :=
  collaborators all_pages
    (fun s _ _ =>
       match s with
       | DirectHttp => Ok too_many_requests
       | RemoteBrowser | LocalBrowser => Ok (response_of results_page)
       end).

Definition blocking0 : @World blocking := @Build_World blocking 0%nat [] [] [].

(** A site that shows the page with the undecodable URL to everyone. *)
Definition malformed : Collaborators := site bad_url_page bad_url_page.
Definition malformed0 : @World malformed := world0 bad_url_page bad_url_page.

End MorePages.

Import MorePages.

Lemma parse_response_raises_only_witness :
  (IndexError
   = FlightDateTooFarError "Requested flight date is too far in the future"
   /\ @css plain (@LexborHTMLParser plain (text (response_of bad_url_page)))
        date_too_far_selector <> [])
  \/ (IndexError
      = FlightParsingError "Required qJTHM element not found in response"
      /\ @css plain (@LexborHTMLParser plain (text (response_of bad_url_page)))
           required_selector = [])
  \/ (is_RuntimeError IndexError = false
      /\ exists item,
           In item
             (@visited plain false 0
                (@css plain
                   (@LexborHTMLParser plain (text (response_of bad_url_page)))
                   groups_selector))
           /\ @decode_failure plain item IndexError).
Proof.
  eapply (@parse_response_raises_only plain (response_of bad_url_page) false
            plain0).
  reflexivity.
Defined.

Lemma flight_invariants_witness :
  Forall
    (fun f =>
       delay f <> Some ""
       /\ (stops f = StopsStr "Unknown" \/ exists n, stops f = StopsInt n)
       /\ pattern_groups (airline_code f) (flight_number f)
       /\ collapse_whitespace (departure f) = departure f
       /\ collapse_whitespace (arrival f) = arrival f)
    (flights expected_result).
Proof.
  apply (@flight_invariants plain (response_of results_page) false plain0
           expected_result plain0).
  reflexivity.
Defined.

Lemma times_both_or_none_witness :
  Forall2
    (fun item f =>
       match @css one_time_site item "span.mv1WYe div" with
       | d :: a :: _ =>
           departure f
           = collapse_whitespace (@node_text one_time_site d true)
           /\ arrival f
              = collapse_whitespace (@node_text one_time_site a true)
       | _ => departure f = "" /\ arrival f = ""
       end)
    (@visited one_time_site false 0
       (@css one_time_site
          (@LexborHTMLParser one_time_site
             (text (response_of one_time_page)))
          groups_selector))
    (flights one_time_result).
Proof.
  apply (@times_both_or_none one_time_site (response_of one_time_page) false
           one_time0 one_time_result one_time0).
  reflexivity.
Defined.

Lemma fetch_returns_only_200_witness :
  status_code (response_of results_page) = 200
  /\ @Client_get plain (fetch_client None) flights_url usd_params
       consent_cookies (net plain0)
     = (Ok (response_of results_page), 1%nat)
  /\ [call_of DirectHttp usd_params]
     = (calls plain0 ++ [call_of DirectHttp usd_params])%list
  /\ @nil string = stdout plain0 /\ @nil string = debug_log plain0.
Proof.
  apply (@fetch_returns_only_200 plain usd_params None plain0
           (response_of results_page)
           (@Build_World plain 1%nat [] [] [call_of DirectHttp usd_params])).
  reflexivity.
Defined.

Lemma fetch_rejects_other_status_witness :
  fst (@fetch blocking usd_params None blocking0)
  = Raise (AssertionError
             (str_of_int 429 ++ " Result: " ++ "Too Many Requests")).
Proof.
  apply (@fetch_rejects_other_status blocking usd_params None blocking0
           too_many_requests 1%nat).
  - reflexivity.
  - eval_subject. discriminate.
Defined.

Lemma first_phase_escalates_on_assertion_only_witness :
  @fetch_by_mode blocking common usd_params None blocking0
  = (Raise (AssertionError "429 Result: Too Many Requests"),
     @Build_World blocking 1%nat [] [] [call_of DirectHttp usd_params])
  /\ @fetch_by_mode blocking fallback usd_params None blocking0
     = @request blocking _ RemoteBrowser usd_params
         (@fallback_playwright_fetch blocking usd_params)
         (@Build_World blocking 1%nat [] [] [call_of DirectHttp usd_params]).
Proof.
  apply (@first_phase_escalates_on_assertion_only blocking usd_params None
           blocking0 (AssertionError "429 Result: Too Many Requests")).
  reflexivity.
Defined.

Lemma fetch_failure_surfaces_witness :
  @get_flights_from_filter blocking "Zm9v" "USD" common None blocking0
  = (Raise (AssertionError "429 Result: Too Many Requests"),
     @Build_World blocking 1%nat [] [] [call_of DirectHttp usd_params]).
Proof.
  apply (@fetch_failure_surfaces blocking).
  reflexivity.
Defined.

Lemma parsed_result_is_returned_witness :
  @get_flights_from_filter blocking "Zm9v" "USD" fallback None blocking0
  = (Ok expected_result,
     @Build_World blocking 2%nat [] []
       [call_of DirectHttp usd_params; call_of RemoteBrowser usd_params]).
Proof.
  apply (@parsed_result_is_returned blocking "Zm9v" "USD" fallback None
           blocking0 (response_of results_page) _ expected_result
           (@Build_World blocking 2%nat [] []
              [call_of DirectHttp usd_params;
               call_of RemoteBrowser usd_params])).
  - reflexivity.
  - reflexivity.
Defined.

Lemma parse_failure_handling_witness :
  @get_flights_from_filter broken "Zm9v" "USD" fallback None broken0
  = @get_flights_from_filter broken "Zm9v" "" local None
      (@logged broken
         (FlightParsingError "Required qJTHM element not found in response")
         (@Build_World broken 1%nat [] [] [call_of DirectHttp usd_params])).
Proof.
  apply (@parse_failure_handling broken "Zm9v" "USD" fallback None broken0
           (response_of no_marker_page)
           (@Build_World broken 1%nat [] [] [call_of DirectHttp usd_params])
           (FlightParsingError "Required qJTHM element not found in response")
           (@Build_World broken 1%nat [] [] [call_of DirectHttp usd_params])).
  - reflexivity.
  - reflexivity.
Defined.

Lemma malformed_item_is_not_retried_witness :
  exists e w3,
    @get_flights_from_filter malformed "Zm9v" "USD" fallback None malformed0
    = (Raise e, w3)
    /\ is_RuntimeError e = false
    /\ calls w3 = [call_of DirectHttp usd_params]
    /\ debug_log w3 = [].
Proof.
  apply (@malformed_item_is_not_retried malformed "Zm9v" "USD" fallback None
           malformed0 (response_of bad_url_page)
           (@Build_World malformed 1%nat [] [] [call_of DirectHttp usd_params])
           bad_url_item IndexError).
  - reflexivity.
  - reflexivity.
  - eval_subject. discriminate.
  - eval_subject. left. reflexivity.
  - eapply (@no_url_match malformed); reflexivity.
Defined.

(** The one-time page gives an entry with two empty times and its delay;
    a blocked call in mode [common] fails, and succeeds in mode
    [fallback] through the remote browser. *)
Example one_time_page_parsed :
  @parse_response one_time_site (response_of one_time_page) false one_time0
  = (Ok one_time_result, one_time0).
Proof. reflexivity. Qed.

Example blocked_call_by_mode :
  map (fun m =>
         map call_strategy
           (calls (snd (@get_flights_from_filter blocking "Zm9v" "USD" m
                          None blocking0))))
    [common; fallback; force_fallback; local]
  = [[DirectHttp]; [DirectHttp; RemoteBrowser]; [RemoteBrowser];
     [LocalBrowser]].
Proof. reflexivity. Qed.

(* ===================================================================== *)
(** ** Stop counts written in digits *)
(* ===================================================================== *)

Module IntFacts.
Import PyStr PyFacts.

(** The number a run of decimal digits writes. *)
Definition decimal_value (ds : list ascii) : Z :=
  fold_left (fun acc c => 10 * acc + digit_value c) ds 0.

Lemma digit_code c : is_digit c = true -> (48 <= code c <= 57)%N.
Proof.
  unfold is_digit, in_range. intros H.
  apply Bool.andb_true_iff in H as [H1 H2].
  apply N.leb_le in H1, H2. lia.
Qed.

Lemma digit_not_int_space c : is_digit c = true -> is_int_space c = false.
Proof.
  intros H. apply digit_code in H. unfold is_int_space, in_range.
  assert (H1 : N.leb (code c) 13 = false) by (apply N.leb_gt; lia).
  assert (H2 : N.eqb (code c) 32 = false) by (apply N.eqb_neq; lia).
  assert (H3 : N.eqb (code c) 133 = false) by (apply N.eqb_neq; lia).
  assert (H4 : N.eqb (code c) 160 = false) by (apply N.eqb_neq; lia).
  rewrite H1, H2, H3, H4, Bool.andb_false_r. reflexivity.
Qed.

Lemma digit_is_not c (x : ascii) :
  is_digit c = true -> is_digit x = false -> Ascii.eqb c x = false.
Proof.
  intros Hc Hx. apply Ascii.eqb_neq. intros ->. congruence.
Qed.

Lemma scan_digits_digits ds started acc nd :
  forallb is_digit ds = true ->
  started = true \/ ds <> [] ->
  scan_digits ds started false acc nd
  = Some (fold_left (fun a c => 10 * a + digit_value c) ds acc,
          (nd + List.length ds)%nat, []).
Proof.
  revert started acc nd. induction ds as [|c ds IH];
    intros started acc nd Hd Hs.
  - destruct Hs as [->|Hs]; [|contradiction].
    cbn. rewrite Nat.add_0_r. reflexivity.
  - cbn in Hd. apply Bool.andb_true_iff in Hd as [Hc Hd].
    cbn [scan_digits]. rewrite Hc, IH by auto.
    cbn [fold_left List.length]. rewrite Nat.add_succ_r. reflexivity.
Qed.

(** [int] on digits, with or without a minus sign. *)
Lemma int_digits (negative : bool) ds :
  ds <> [] -> forallb is_digit ds = true ->
  (List.length ds <= int_max_str_digits)%nat ->
  int (str (if negative then "-"%char :: ds else ds))
  = Ok (if negative then - decimal_value ds else decimal_value ds).
Proof.
  intros Hn Hd Hl. unfold int. rewrite chars_str.
  assert (Hlim : Nat.ltb int_max_str_digits (List.length ds) = false)
    by (apply Nat.ltb_ge; exact Hl).
  destruct negative.
  - cbn [dropwhile]. change (is_int_space "-") with false. cbv iota.
    change (Ascii.eqb "-" "+") with false.
    change (Ascii.eqb "-" "-") with true. cbv iota.
    rewrite scan_digits_digits by auto. cbn [dropwhile Nat.add].
    rewrite Hlim. reflexivity.
  - destruct ds as [|c ds]; [contradiction|].
    pose proof Hd as Hc. cbn in Hc.
    apply Bool.andb_true_iff in Hc as [Hc _].
    cbn [dropwhile]. rewrite (digit_not_int_space _ Hc).
    rewrite (digit_is_not c "+" Hc), (digit_is_not c "-" Hc) by reflexivity.
    rewrite scan_digits_digits by auto. cbn [dropwhile Nat.add].
    rewrite Hlim. reflexivity.
Qed.

Lemma until_space_token tok rest :
  forallb (fun c => negb (Ascii.eqb c " ")) tok = true ->
  until_space (tok ++ " "%char :: rest) = tok.
Proof.
  induction tok as [|c tok IH]; intros H; [reflexivity|].
  cbn in H. apply Bool.andb_true_iff in H as [Hc Ht].
  apply Bool.negb_true_iff in Hc.
  cbn [app until_space]. rewrite Hc, (IH Ht). reflexivity.
Qed.

End IntFacts.

(** X16.  A stop-count text that starts with decimal digits, at most
    [int_max_str_digits] of them, followed by a space, gives the number the
    digits write; with a minus sign before the digits it gives the negative
    of that number, so the stop count of an entry can be negative. *)
Theorem stops_of_decimal_text (negative : bool) (ds : list ascii)
    (rest : string) :
  ds <> [] ->
  forallb PyStr.is_digit ds = true ->
  (List.length ds <= PyStr.int_max_str_digits)%nat ->
  stops_fmt_of
    (PyStr.str (if negative then "-"%char :: ds else ds) ++ " " ++ rest)
  = Ok (StopsInt (if negative then - IntFacts.decimal_value ds
                  else IntFacts.decimal_value ds)).
Proof.
  intros Hn Hd Hl. rewrite stops_fmt_of_eq.
  set (tok := if negative then "-"%char :: ds else ds).
  assert (Htok : forallb (fun c => negb (Ascii.eqb c " ")) tok = true).
  { assert (Hds : forallb (fun c => negb (Ascii.eqb c " ")) ds = true).
    { apply forallb_forall. intros c Hc.
      rewrite (IntFacts.digit_is_not c " "); [reflexivity| |reflexivity].
      exact (proj1 (forallb_forall _ _) Hd c Hc). }
    subst tok. destruct negative; [cbn; exact Hds|exact Hds]. }
  assert (Hlead : leading_token (PyStr.str tok ++ " " ++ rest)
                  = PyStr.str tok).
  { unfold leading_token. rewrite PyFacts.chars_app, PyFacts.chars_str.
    change (PyStr.chars (" " ++ rest)) with (" "%char :: PyStr.chars rest).
    rewrite (IntFacts.until_space_token _ _ Htok). reflexivity. }
  assert (Hne : String.eqb (PyStr.str tok ++ " " ++ rest) "Nonstop" = false).
  { subst tok. destruct negative; [reflexivity|].
    destruct ds as [|c ds]; [contradiction|].
    cbn in Hd. apply Bool.andb_true_iff in Hd as [Hc _].
    cbn. rewrite (IntFacts.digit_is_not c "N" Hc) by reflexivity.
    reflexivity. }
  rewrite Hne, Hlead. subst tok.
  rewrite (IntFacts.int_digits negative ds Hn Hd Hl).
  destruct negative; reflexivity.
Qed.

Lemma stops_of_decimal_text_witness :
  stops_fmt_of "-12 stops" = Ok (StopsInt (-12)).
Proof.
  apply (stops_of_decimal_text true ["1"%char; "2"%char] "stops").
  - discriminate.
  - reflexivity.
  - unfold PyStr.int_max_str_digits. cbn. lia.
Defined.

(* ===================================================================== *)
(** ** Which items are visited, and where a call ends *)
(* ===================================================================== *)

Section MoreCallFacts.
Context {C : Collaborators}.

(** X17.  The items of a group that the loop visits are all of them, in
    order, for the first group and when the last items are kept, and all
    but the last one, in order, otherwise. *)
Theorem last_item_is_dropped allow i fl :
  retained_items allow i fl
  = if (allow || Nat.eqb i 0)%bool then css fl "ul.Rk10dc li"
    else removelast (css fl "ul.Rk10dc li").
Proof. apply retained_items_eq. Qed.

(** X18.  The retry of mode [fallback] is the last attempt: when the
    document of the local browser fails to parse as well, the caller gets
    the exception of that second parsing, whatever it is, and nothing more
    is asked. *)
Theorem retry_failure_surfaces filter currency proxy w res w1 e w2
    res' w3 e' w4 :
  fetch_by_mode fallback (build_params filter currency) proxy w
  = (Ok res, w1) ->
  parse_response res false w1 = (Raise e, w2) ->
  is_RuntimeError e = true ->
  fetch_by_mode local (build_params filter "") proxy (logged e w2)
  = (Ok res', w3) ->
  parse_response res' false w3 = (Raise e', w4) ->
  get_flights_from_filter filter currency fallback proxy w
  = (Raise e', if is_RuntimeError e' then logged e' w4 else w4)
  /\ calls w4 = calls w3.
Proof.
  intros Hf Hp He Hf' Hp'.
  pose proof (parse_response_calls res' false w3) as Hc.
  rewrite Hp' in Hc. cbn [snd] in Hc. split; [|exact Hc].
  rewrite (parse_failure_handling_aux filter currency fallback proxy w res w1
             e w2 Hf Hp).
  rewrite He. cbn [fetch_mode_eqb].
  rewrite (parse_failure_handling_aux filter "" local proxy (logged e w2)
             res' w3 e' w4 Hf' Hp').
  cbn [fetch_mode_eqb]. destruct (is_RuntimeError e'); reflexivity.
Qed.

(** X19.  The proxy reaches the HTTP client only: in the modes
    [force_fallback] and [local], which ask a browser, a call with a proxy
    does what the call without one does. *)
Theorem proxy_is_for_the_http_client_only filter currency mode proxy w :
  mode = force_fallback \/ mode = local ->
  get_flights_from_filter filter currency mode proxy w
  = get_flights_from_filter filter currency mode None w.
Proof.
  intros Hm. rewrite !get_flights_from_filter_equation_1. cbv zeta.
  unfold bind at 1 3.
  replace (fetch_by_mode mode (build_params filter currency) proxy w)
    with (fetch_by_mode mode (build_params filter currency) None w)
    by (destruct Hm as [->| ->]; reflexivity).
  destruct (fetch_by_mode mode (build_params filter currency) None w)
    as [[res|e] w1]; [|reflexivity].
  unfold try_except.
  destruct (parse_response res false w1) as [[result|e] w2]; [reflexivity|].
  destruct (is_RuntimeError e); [|reflexivity].
  unfold bind. destruct (logger_debug _ w2) as [[u|e1] w3]; [|reflexivity].
  destruct (fetch_mode_eq_dec mode fallback) as [->|_]; [|reflexivity].
  destruct Hm; discriminate.
Qed.

End MoreCallFacts.

(** A site that shows a page without the required element to a plain
    HTTP client and the page with the undecodable URL to a browser. *)
Definition twice_bad : Collaborators := site no_marker_page bad_url_page.
Definition twice_bad0 : @World twice_bad := world0 no_marker_page bad_url_page.

Definition retry_calls : list Call :=
  [call_of DirectHttp usd_params;
   call_of LocalBrowser (@build_params twice_bad "Zm9v" "")].

Definition retry_log : list string :=
  ["RuntimeError in get_flights_from_filter: "
     ++ "Required qJTHM element not found in response"].

Lemma retry_failure_surfaces_witness :
  @get_flights_from_filter twice_bad "Zm9v" "USD" fallback None twice_bad0
  = (Raise IndexError,
     @Build_World twice_bad 2%nat
       [airline_not_found (lookup "SFO-JFK-20250101")] retry_log retry_calls)
  /\ retry_calls = retry_calls.
Proof.
  apply (@retry_failure_surfaces twice_bad "Zm9v" "USD" None twice_bad0
           (response_of no_marker_page)
           (@Build_World twice_bad 1%nat [] []
              [call_of DirectHttp usd_params])
           (FlightParsingError "Required qJTHM element not found in response")
           (@Build_World twice_bad 1%nat [] []
              [call_of DirectHttp usd_params])
           (response_of bad_url_page)
           (@Build_World twice_bad 2%nat [] retry_log retry_calls)
           IndexError
           (@Build_World twice_bad 2%nat
              [airline_not_found (lookup "SFO-JFK-20250101")]
              retry_log retry_calls)); reflexivity.
Defined.

Lemma proxy_is_for_the_http_client_only_witness :
  @get_flights_from_filter plain "Zm9v" "USD" local (Some "http://proxy:8080")
    plain0
  = @get_flights_from_filter plain "Zm9v" "USD" local None plain0.
Proof.
  apply (@proxy_is_for_the_http_client_only plain).
  right. reflexivity.
Defined.
